(** * ESP32 FreeRTOS telemetry pipeline: generators, tasks and their queue

    A shallow embedding of [telemetry_generators.c] and [telemetry_tasks.c].
    The C statics, the FreeRTOS tick and the three task bodies become one
    [world] record; each task advances by one shared-state access per step
    and a schedule (a list of [event]s) interleaves them with the tick
    interrupt. *)

From Stdlib Require Import ZArith List Bool Lia QArith Sorting.Sorted.
From Stdlib Require Import Floats.SpecFloat.
Import ListNotations.
Open Scope Z_scope.

Set Implicit Arguments.

(** ** Machine integers *)

(** [uint16_t] and [uint32_t] values are integers reduced modulo the width. *)
Definition u16 (x : Z) : Z := x mod 65536.
Definition u32 (x : Z) : Z := x mod 4294967296.

(** ** Single-precision floats

    C [float] on the ESP32 is IEEE-754 binary32: 24 bits of precision,
    maximal exponent 128, round to nearest even. *)
Module F32.

Definition prec : Z := 24.
Definition emax : Z := 128.

(** Conversion of an integer to [float]. *)
Definition of_Z (n : Z) : spec_float := binary_normalize prec emax n 0 false.

Definition add := SFadd prec emax.
Definition sub := SFsub prec emax.
Definition div := SFdiv prec emax.

(** The decimal literal [n/d] written with an [f] suffix: the nearest
    binary32 to the exact quotient, which is what the correctly rounded
    division of the two (exactly representable) integers yields. *)
Definition lit (n d : Z) : spec_float := div (of_Z n) (of_Z d).

Definition is_finite (x : spec_float) : bool :=
  match x with
  | S754_zero _ | S754_finite _ _ _ => true
  | S754_infinity _ | S754_nan => false
  end.

(** Exact rational value of a finite float. *)
Definition to_Q (x : spec_float) : Q :=
  match x with
  | S754_finite s m e =>
      let n := if s then Z.neg m else Z.pos m in
      if 0 <=? e then inject_Z (n * 2 ^ e) else Qmake n (Z.to_pos (2 ^ (- e)))
  | _ => 0%Q
  end.

(** Conversion of a [float] to a C integer: truncation toward zero. *)
Definition to_int (x : spec_float) : Z :=
  match x with
  | S754_finite s m e =>
      let n := if s then Z.neg m else Z.pos m in
      if 0 <=? e then n * 2 ^ e else Z.quot n (2 ^ (- e))
  | _ => 0
  end.

End F32.

(** ** Packets

    The layout comes from [telemetry_storage.h]; the fields are the ones the
    generators assign and the tasks print. *)

Inductive telemetry_type_t :=
| TELEM_SYSTEM_STATUS
| TELEM_POWER_DATA
| TELEM_TEMPERATURE_DATA
| TELEM_COMMUNICATION_STATUS.

Record telemetry_header_t := {
  type : telemetry_type_t;
  timestamp : Z;
  sequence : Z;
  priority : Z
}.

Module SystemTelem.
Record t := {
  uptime_seconds : Z;
  system_mode : Z;
  cpu_usage : Z;
  stack_high_water : Z;
  heap_free : Z;
  task_count : Z;
  error_count : Z
}.
End SystemTelem.

Module PowerTelem.
Record t := {
  battery_voltage : spec_float;
  battery_temperature : Z;
  battery_current : spec_float;
  solar_panel_voltage : spec_float;
  solar_panel_current : spec_float;
  battery_level : Z;
  power_state : Z
}.
End PowerTelem.

Module TemperatureTelem.
Record t := {
  obc_temperature : Z;
  comms_temperature : Z;
  payload_temperature : Z;
  battery_temperature : Z;
  external_temperature : Z
}.
End TemperatureTelem.

Module SubsystemTelem.
Record t := {
  comms_status : Z;
  adcs_status : Z;
  payload_status : Z;
  power_status : Z;
  comms_uptime : Z;
  payload_uptime : Z;
  last_command_id : Z;
  command_success_rate : Z
}.
End SubsystemTelem.

(** [telemetry_packet_t] overlays the four structures on a common header. *)
Inductive telemetry_payload_t :=
| system (p : SystemTelem.t)
| power (p : PowerTelem.t)
| temperature (p : TemperatureTelem.t)
| subsystems (p : SubsystemTelem.t).

Record telemetry_packet_t := {
  header : telemetry_header_t;
  payload : telemetry_payload_t
}.

(** The structure a packet of each type carries. *)
Definition payload_type (p : telemetry_payload_t) : telemetry_type_t :=
  match p with
  | system _ => TELEM_SYSTEM_STATUS
  | power _ => TELEM_POWER_DATA
  | temperature _ => TELEM_TEMPERATURE_DATA
  | subsystems _ => TELEM_COMMUNICATION_STATUS
  end.

(** ** Build configuration and platform readings *)

Record config := {
  WOKWI : bool;                (* the [#ifdef WOKWI] switch *)
  configTICK_RATE_HZ : Z;      (* FreeRTOS tick frequency *)
  capacity : nat               (* number of packets the storage holds *)
}.

(** What the platform calls return during one generator call; [esp_random]
    is indexed by the position of the draw inside that call. *)
Record readings := {
  uxTaskGetStackHighWaterMark : Z;
  esp_get_free_heap_size : Z;
  uxTaskGetNumberOfTasks : Z;
  esp_random : nat -> Z
}.

(** [pdMS_TO_TICKS]: milliseconds to ticks. *)
Definition pdMS_TO_TICKS (cfg : config) (ms : Z) : Z :=
  (ms * configTICK_RATE_HZ cfg) / 1000.

(** ** Virtual sensors (WOKWI) *)

(** [3.3f + ((esp_random() % 200) / 1000.0f)] *)
Definition read_virtual_voltage (rnd : Z) : spec_float :=
  F32.add (F32.lit 33 10) (F32.div (F32.of_Z (u32 rnd mod 200)) (F32.of_Z 1000)).

(** [25.0f + ((esp_random() % 150) / 10.0f)] *)
Definition read_virtual_temperature (rnd : Z) : spec_float :=
  F32.add (F32.of_Z 25) (F32.div (F32.of_Z (u32 rnd mod 150)) (F32.of_Z 10)).

(** ** The state of the whole program *)

Inductive collector_pc := C_Init | C_System | C_Power | C_Temperature | C_Subsystem | C_Delay.

Inductive transmitter_pc := T_Poll | T_Window | T_Burst.

Inductive consumer := Processor | Transmitter.

(** The two file-scope statics of [telemetry_generators.c]. *)
Record generators_state := {
  sequence_number : Z;
  system_uptime : Z
}.

(** Locals of [vTelemetryCollectorTask]; [c_sleep] is the number of ticks
    the task still has to stay blocked. *)
Record collector_task := {
  c_pc : collector_pc;
  xLastWakeTime : Z;
  c_sleep : Z
}.

Record processor_task := {
  processed_count : Z;
  p_sleep : Z
}.

(** Locals of [vTelemetryTransmitterTask]. [poll_tick] is a ghost field: the
    value [xTaskGetTickCount()] returned to the gate test of the iteration
    in progress. *)
Record transmitter_task := {
  t_pc : transmitter_pc;
  ground_station_available : bool;
  transmission_count : Z;
  t_sleep : Z;
  poll_tick : Z
}.

(** [store_log] and [delivered] are ghost histories: every call of
    [telemetry_store_packet] with its result, and every packet a consumer
    retrieved (each one is a line the consumer prints). *)
Record world := {
  generators : generators_state;
  storage : list telemetry_packet_t;
  xTickCount : Z;
  collector : collector_task;
  processor : processor_task;
  transmitter : transmitter_task;
  store_log : list (telemetry_packet_t * bool);
  delivered : list (consumer * telemetry_packet_t)
}.

Definition set_generators (g : generators_state) (s : world) : world :=
  {| generators := g; storage := storage s; xTickCount := xTickCount s;
     collector := collector s; processor := processor s;
     transmitter := transmitter s; store_log := store_log s;
     delivered := delivered s |}.

Definition set_storage (q : list telemetry_packet_t) (s : world) : world :=
  {| generators := generators s; storage := q; xTickCount := xTickCount s;
     collector := collector s; processor := processor s;
     transmitter := transmitter s; store_log := store_log s;
     delivered := delivered s |}.

Definition set_xTickCount (t : Z) (s : world) : world :=
  {| generators := generators s; storage := storage s; xTickCount := t;
     collector := collector s; processor := processor s;
     transmitter := transmitter s; store_log := store_log s;
     delivered := delivered s |}.

Definition set_collector (c : collector_task) (s : world) : world :=
  {| generators := generators s; storage := storage s; xTickCount := xTickCount s;
     collector := c; processor := processor s;
     transmitter := transmitter s; store_log := store_log s;
     delivered := delivered s |}.

Definition set_processor (p : processor_task) (s : world) : world :=
  {| generators := generators s; storage := storage s; xTickCount := xTickCount s;
     collector := collector s; processor := p;
     transmitter := transmitter s; store_log := store_log s;
     delivered := delivered s |}.

Definition set_transmitter (t : transmitter_task) (s : world) : world :=
  {| generators := generators s; storage := storage s; xTickCount := xTickCount s;
     collector := collector s; processor := processor s;
     transmitter := t; store_log := store_log s;
     delivered := delivered s |}.

Definition set_store_log (l : list (telemetry_packet_t * bool)) (s : world) : world :=
  {| generators := generators s; storage := storage s; xTickCount := xTickCount s;
     collector := collector s; processor := processor s;
     transmitter := transmitter s; store_log := l;
     delivered := delivered s |}.

Definition set_delivered (l : list (consumer * telemetry_packet_t)) (s : world) : world :=
  {| generators := generators s; storage := storage s; xTickCount := xTickCount s;
     collector := collector s; processor := processor s;
     transmitter := transmitter s; store_log := store_log s;
     delivered := l |}.

(** ** Packet storage *)

(** Modelled from the spec: [telemetry_storage.c] is not among the sources.
    The spec gives the contract: [init] establishes an empty bounded queue. *)
Definition telemetry_storage_init (s : world) : world :=
  set_storage [] s.

(** Modelled from the spec: [store] appends the packet and reports success;
    on a full queue it reports failure, the packet is not retained and the
    occupancy stays at the capacity. *)
Definition telemetry_store_packet (cfg : config) (p : telemetry_packet_t)
    (s : world) : bool * world :=
  if (length (storage s) <? capacity cfg)%nat
  then (true, set_store_log (store_log s ++ [(p, true)])
                (set_storage (storage s ++ [p]) s))
  else (false, set_store_log (store_log s ++ [(p, false)]) s).

(** Modelled from the spec: [retrieve] removes and returns the oldest stored
    packet, or reports that the queue is empty. *)
Definition telemetry_retrieve_packet (s : world)
    : option telemetry_packet_t * world :=
  match storage s with
  | [] => (None, s)
  | p :: q => (Some p, set_storage q s)
  end.

(** Modelled from the spec: [available_count] is the current occupancy. *)
Definition telemetry_available_packets (s : world) : Z :=
  Z.of_nat (length (storage s)).

(** ** FreeRTOS services *)

Definition xTaskGetTickCount (s : world) : Z := xTickCount s.

(** A task runs when it has no ticks left to wait. *)
Definition awake (sleep : Z) : bool := sleep <=? 0.

(** [vTaskDelayUntil(&last, inc)]: the new wake time is [last + inc]; the
    task blocks until then unless that instant has already passed. Returns
    the updated [last] and the ticks to wait. *)
Definition vTaskDelayUntil (now last inc : Z) : Z * Z :=
  let xTimeToWake := u32 (last + inc) in
  let xShouldDelay :=
    if now <? last
    then (xTimeToWake <? last) && (now <? xTimeToWake)
    else (xTimeToWake <? last) || (now <? xTimeToWake) in
  (xTimeToWake, if xShouldDelay then u32 (xTimeToWake - now) else 0).

(** ** Generators ([telemetry_generators.c]) *)

Definition post_increment_sequence (g : generators_state) : generators_state :=
  {| sequence_number := u16 (sequence_number g + 1);
     system_uptime := system_uptime g |}.

Definition post_increment_uptime (g : generators_state) : generators_state :=
  {| sequence_number := sequence_number g;
     system_uptime := u32 (system_uptime g + 1) |}.

Definition generate_system_telemetry (cfg : config) (r : readings)
    (s : world) : world :=
  let hdr := {| type := TELEM_SYSTEM_STATUS;
                timestamp := xTaskGetTickCount s;
                sequence := sequence_number (generators s);
                priority := 1 |} in
  let s := set_generators (post_increment_sequence (generators s)) s in
  let uptime := system_uptime (generators s) in
  let s := set_generators (post_increment_uptime (generators s)) s in
  let system_telem :=
    {| header := hdr;
       payload := system
         {| SystemTelem.uptime_seconds := uptime;
            SystemTelem.system_mode := 1;
            SystemTelem.cpu_usage := 0;
            SystemTelem.stack_high_water := uxTaskGetStackHighWaterMark r;
            SystemTelem.heap_free := esp_get_free_heap_size r;
            SystemTelem.task_count := uxTaskGetNumberOfTasks r;
            SystemTelem.error_count := 0 |} |} in
  snd (telemetry_store_packet cfg system_telem s).

Definition generate_power_telemetry (cfg : config) (r : readings)
    (s : world) : world :=
  let hdr := {| type := TELEM_POWER_DATA;
                timestamp := xTaskGetTickCount s;
                sequence := sequence_number (generators s);
                priority := 2 |} in
  let s := set_generators (post_increment_sequence (generators s)) s in
  let voltage :=
    if WOKWI cfg then read_virtual_voltage (esp_random r 0%nat)
    else F32.lit 33 10 in
  let temp :=
    if WOKWI cfg then F32.to_int (read_virtual_temperature (esp_random r 1%nat))
    else 25 in
  let power_telem :=
    {| header := hdr;
       payload := power
         {| PowerTelem.battery_voltage := voltage;
            PowerTelem.battery_temperature := temp;
            PowerTelem.battery_current := F32.lit 1 10;
            PowerTelem.solar_panel_voltage := F32.of_Z 5;
            PowerTelem.solar_panel_current := F32.lit 5 10;
            PowerTelem.battery_level :=
              u32 (85 - system_uptime (generators s) / 3600);
            PowerTelem.power_state := 0 |} |} in
  snd (telemetry_store_packet cfg power_telem s).

Definition generate_temperature_telemetry (cfg : config) (r : readings)
    (s : world) : world :=
  let hdr := {| type := TELEM_TEMPERATURE_DATA;
                timestamp := xTaskGetTickCount s;
                sequence := sequence_number (generators s);
                priority := 1 |} in
  let s := set_generators (post_increment_sequence (generators s)) s in
  let draw i := read_virtual_temperature (esp_random r i) in
  let body :=
    if WOKWI cfg then
      {| TemperatureTelem.obc_temperature := F32.to_int (draw 0%nat);
         TemperatureTelem.comms_temperature :=
           F32.to_int (F32.sub (draw 1%nat) (F32.of_Z 5));
         TemperatureTelem.payload_temperature :=
           F32.to_int (F32.add (draw 2%nat) (F32.of_Z 3));
         TemperatureTelem.battery_temperature := F32.to_int (draw 3%nat);
         TemperatureTelem.external_temperature :=
           F32.to_int (F32.sub (draw 4%nat) (F32.of_Z 10)) |}
    else
      {| TemperatureTelem.obc_temperature := 35;
         TemperatureTelem.comms_temperature := 28;
         TemperatureTelem.payload_temperature := 25;
         TemperatureTelem.battery_temperature := 22;
         TemperatureTelem.external_temperature := -15 |} in
  let temp_telem := {| header := hdr; payload := temperature body |} in
  snd (telemetry_store_packet cfg temp_telem s).

Definition generate_subsystem_telemetry (cfg : config) (r : readings)
    (s : world) : world :=
  let hdr := {| type := TELEM_COMMUNICATION_STATUS;
                timestamp := xTaskGetTickCount s;
                sequence := sequence_number (generators s);
                priority := 1 |} in
  let s := set_generators (post_increment_sequence (generators s)) s in
  let subsys_telem :=
    {| header := hdr;
       payload := subsystems
         {| SubsystemTelem.comms_status := 1;
            SubsystemTelem.adcs_status := 1;
            SubsystemTelem.payload_status := 1;
            SubsystemTelem.power_status := 1;
            SubsystemTelem.comms_uptime := system_uptime (generators s);
            SubsystemTelem.payload_uptime :=
              u32 (system_uptime (generators s) - 100);
            SubsystemTelem.last_command_id := 37;
            SubsystemTelem.command_success_rate := 98 |} |} in
  snd (telemetry_store_packet cfg subsys_telem s).

(** ** Tasks ([telemetry_tasks.c])

    Each function below performs the next atomic action of its task: the
    statements up to and including one access to shared state (the tick
    counter or the storage). A blocked task does nothing. *)

Definition goto_collector (pc : collector_pc) (s : world) : world :=
  set_collector {| c_pc := pc;
                   xLastWakeTime := xLastWakeTime (collector s);
                   c_sleep := c_sleep (collector s) |} s.

Definition vTelemetryCollectorTask (cfg : config) (r : readings)
    (s : world) : world :=
  if awake (c_sleep (collector s)) then
    match c_pc (collector s) with
    | C_Init =>
        (* TickType_t xLastWakeTime = xTaskGetTickCount();
           telemetry_storage_init(); *)
        let s := set_collector {| c_pc := C_System;
                                  xLastWakeTime := xTaskGetTickCount s;
                                  c_sleep := c_sleep (collector s) |} s in
        telemetry_storage_init s
    | C_System => goto_collector C_Power (generate_system_telemetry cfg r s)
    | C_Power => goto_collector C_Temperature (generate_power_telemetry cfg r s)
    | C_Temperature =>
        goto_collector C_Subsystem (generate_temperature_telemetry cfg r s)
    | C_Subsystem =>
        goto_collector C_Delay (generate_subsystem_telemetry cfg r s)
    | C_Delay =>
        (* vTaskDelayUntil(&xLastWakeTime, pdMS_TO_TICKS(5000)); *)
        let '(last, wait) :=
          vTaskDelayUntil (xTaskGetTickCount s) (xLastWakeTime (collector s))
                          (pdMS_TO_TICKS cfg 5000) in
        set_collector {| c_pc := C_System; xLastWakeTime := last;
                         c_sleep := wait |} s
    end
  else s.

Definition vTelemetryProcessorTask (cfg : config) (s : world) : world :=
  if awake (p_sleep (processor s)) then
    match telemetry_retrieve_packet s with
    | (Some packet, s) =>
        (* processed_count++; the switch on packet.header.type prints one
           line for the packet, then the occupancy is printed: both only
           read, and the line is recorded in [delivered] *)
        let s := set_processor
                   {| processed_count := u32 (processed_count (processor s) + 1);
                      p_sleep := p_sleep (processor s) |} s in
        set_delivered (delivered s ++ [(Processor, packet)]) s
    | (None, s) =>
        (* vTaskDelay(pdMS_TO_TICKS(1000)); *)
        set_processor {| processed_count := processed_count (processor s);
                         p_sleep := pdMS_TO_TICKS cfg 1000 |} s
    end
  else s.

(** The gate test [(xTaskGetTickCount() / 1000) % 30 == 0]. *)
Definition contact_window (tick : Z) : bool := (tick / 1000) mod 30 =? 0.

(** End of a poll iteration: [vTaskDelay(pdMS_TO_TICKS(2000))] with the gate
    left as given, then back to the head of the loop. *)
Definition end_of_poll (cfg : config) (gate : bool) (s : world) : world :=
  set_transmitter
    {| t_pc := T_Poll;
       ground_station_available := gate;
       transmission_count := transmission_count (transmitter s);
       t_sleep := pdMS_TO_TICKS cfg 2000;
       poll_tick := poll_tick (transmitter s) |} s.

Definition vTelemetryTransmitterTask (cfg : config) (s : world) : world :=
  let t := transmitter s in
  if awake (t_sleep t) then
    match t_pc t with
    | T_Poll =>
        (* if((xTaskGetTickCount() / 1000) % 30 == 0)
             ground_station_available = true; *)
        let now := xTaskGetTickCount s in
        set_transmitter
          {| t_pc := T_Window;
             ground_station_available :=
               if contact_window now then true else ground_station_available t;
             transmission_count := transmission_count t;
             t_sleep := t_sleep t;
             poll_tick := now |} s
    | T_Window =>
        if ground_station_available t then
          let available := telemetry_available_packets s in
          if 0 <? available then
            set_transmitter
              {| t_pc := T_Burst;
                 ground_station_available := ground_station_available t;
                 transmission_count := transmission_count t;
                 t_sleep := t_sleep t;
                 poll_tick := poll_tick t |} s
          else
            (* ground_station_available = false; *)
            end_of_poll cfg false s
        else end_of_poll cfg (ground_station_available t) s
    | T_Burst =>
        (* while(telemetry_retrieve_packet(&packet)) *)
        match telemetry_retrieve_packet s with
        | (Some packet, s) =>
            (* transmission_count++; one line printed for the packet;
               vTaskDelay(pdMS_TO_TICKS(50)); *)
            let s := set_transmitter
                       {| t_pc := T_Burst;
                          ground_station_available := ground_station_available t;
                          transmission_count := u32 (transmission_count t + 1);
                          t_sleep := pdMS_TO_TICKS cfg 50;
                          poll_tick := poll_tick t |} s in
            set_delivered (delivered s ++ [(Transmitter, packet)]) s
        | (None, s) =>
            (* ground_station_available = false; *)
            end_of_poll cfg false s
        end
    end
  else s.

(** The tick interrupt: the counter advances and every blocked task has one
    tick less to wait. *)
Definition count_down (sleep : Z) : Z := if 0 <? sleep then sleep - 1 else sleep.

Definition xTaskIncrementTick (s : world) : world :=
  let s := set_xTickCount (u32 (xTickCount s + 1)) s in
  let s := set_collector {| c_pc := c_pc (collector s);
                            xLastWakeTime := xLastWakeTime (collector s);
                            c_sleep := count_down (c_sleep (collector s)) |} s in
  let s := set_processor {| processed_count := processed_count (processor s);
                            p_sleep := count_down (p_sleep (processor s)) |} s in
  set_transmitter {| t_pc := t_pc (transmitter s);
                     ground_station_available :=
                       ground_station_available (transmitter s);
                     transmission_count := transmission_count (transmitter s);
                     t_sleep := count_down (t_sleep (transmitter s));
                     poll_tick := poll_tick (transmitter s) |} s.

(** ** Schedules *)

Inductive event :=
| Tick
| RunCollector (r : readings)
| RunProcessor
| RunTransmitter.

Definition step (cfg : config) (e : event) (s : world) : world :=
  match e with
  | Tick => xTaskIncrementTick s
  | RunCollector r => vTelemetryCollectorTask cfg r s
  | RunProcessor => vTelemetryProcessorTask cfg s
  | RunTransmitter => vTelemetryTransmitterTask cfg s
  end.

Fixpoint run (cfg : config) (evs : list event) (s : world) : world :=
  match evs with
  | [] => s
  | e :: evs => run cfg evs (step cfg e s)
  end.

(** The program at start-up: statics zeroed, the three tasks created and
    ready at their first statement. *)
Definition boot : world :=
  {| generators := {| sequence_number := 0; system_uptime := 0 |};
     storage := [];
     xTickCount := 0;
     collector := {| c_pc := C_Init; xLastWakeTime := 0; c_sleep := 0 |};
     processor := {| processed_count := 0; p_sleep := 0 |};
     transmitter := {| t_pc := T_Poll; ground_station_available := false;
                       transmission_count := 0; t_sleep := 0; poll_tick := 0 |};
     store_log := [];
     delivered := [] |}.

(** ** Observations on a state *)

(** Packets the storage accepted, in the order of the calls. *)
Definition stored (s : world) : list telemetry_packet_t :=
  map fst (filter snd (store_log s)).

(** Packets taken out of the storage, in the order they were taken. *)
Definition dequeued (s : world) : list telemetry_packet_t :=
  map snd (delivered s).

Definition is_consumer (c : consumer) (x : consumer * telemetry_packet_t) : bool :=
  match c, fst x with
  | Processor, Processor | Transmitter, Transmitter => true
  | _, _ => false
  end.

(** Packets a given consumer retrieved. *)
Definition retrieved_by (c : consumer) (s : world) : list telemetry_packet_t :=
  map snd (filter (is_consumer c) (delivered s)).

Definition seq_of (p : telemetry_packet_t) : Z := sequence (header p).

(** Every two neighbours of the list differ by one modulo 2^16. *)
Definition consecutive (l : list Z) : Prop :=
  forall i a b,
    nth_error l i = Some a -> nth_error l (S i) = Some b -> b = u16 (a + 1).

(** Schedule pieces for examples: a quiet platform, one collector cycle
    (four generators and the periodic delay), and the ticks of a pause. *)
Definition quiet : readings :=
  {| uxTaskGetStackHighWaterMark := 1024;
     esp_get_free_heap_size := 200000;
     uxTaskGetNumberOfTasks := 3;
     esp_random := fun i => 12345 * Z.of_nat (S i) |}.

Definition collector_cycle : list event := repeat (RunCollector quiet) 5.

Definition pause (ticks : Z) : list event := repeat Tick (Z.to_nat ticks).

Definition demo_config : config :=
  {| WOKWI := true; configTICK_RATE_HZ := 1000; capacity := 4 |}.


(** Three collector cycles five seconds apart against a storage of four
    packets, the processor taking one packet after the second cycle and
    four more after the third. *)
Definition gap_schedule : list event :=
  [RunCollector quiet] ++ collector_cycle
  ++ pause 5000 ++ collector_cycle ++ [RunProcessor]
  ++ pause 5000 ++ collector_cycle ++ repeat RunProcessor 4.

(** One collector cycle at tick 0 (a contact window), drained by both
    consumers in turn. *)
Definition contested_schedule : list event :=
  [RunCollector quiet] ++ collector_cycle
  ++ [RunProcessor; RunTransmitter; RunTransmitter; RunTransmitter]
  ++ pause 50 ++ [RunProcessor; RunTransmitter] ++ pause 50
  ++ [RunTransmitter].

(** The transmitter running alone through a burst over [n] stored packets:
    the occupancy check, then each packet followed by the ticks of its
    50 ms delay, then the retrieve that reports the storage empty. With
    nothing stored the occupancy check alone ends the poll. *)
Definition burst_packet (cfg : config) : list event :=
  RunTransmitter :: pause (pdMS_TO_TICKS cfg 50).

Definition burst_schedule (cfg : config) (n : nat) : list event :=
  match n with
  | O => [RunTransmitter]
  | S _ =>
      RunTransmitter :: concat (repeat (burst_packet cfg) n) ++ [RunTransmitter]
  end.

(** Events of the other tasks and of the tick. *)
Definition collector_free (evs : list event) : bool :=
  forallb (fun e => match e with RunCollector _ => false | _ => true end) evs.

(** The generator the collector calls at each point of its loop body: the
    type and priority it stamps, and where the collector goes next. *)
Definition generator_at (pc : collector_pc)
    : option (telemetry_type_t * Z * collector_pc) :=
  match pc with
  | C_System => Some (TELEM_SYSTEM_STATUS, 1, C_Power)
  | C_Power => Some (TELEM_POWER_DATA, 2, C_Temperature)
  | C_Temperature => Some (TELEM_TEMPERATURE_DATA, 1, C_Subsystem)
  | C_Subsystem => Some (TELEM_COMMUNICATION_STATUS, 1, C_Delay)
  | C_Init | C_Delay => None
  end.

(** A finite float whose exact value lies between two rationals. *)
Definition in_range (lo hi : Q) (x : spec_float) : bool :=
  F32.is_finite x && Qle_bool lo (F32.to_Q x) && Qle_bool (F32.to_Q x) hi.

(** The integers 0 .. n-1. *)
Definition below (n : nat) : list Z := map Z.of_nat (seq 0 n).


(** Number of tick interrupts in a schedule. *)
Definition ticks (evs : list event) : nat :=
  length (filter (fun e => match e with Tick => true | _ => false end) evs).

(** The packet type that goes with a sequence number: the collector stamps
    its four packets in a fixed order, so the type follows from the
    number modulo 4. *)
Definition type_of_sequence (n : Z) : telemetry_type_t :=
  match n mod 4 with
  | 0 => TELEM_SYSTEM_STATUS
  | 1 => TELEM_POWER_DATA
  | 2 => TELEM_TEMPERATURE_DATA
  | _ => TELEM_COMMUNICATION_STATUS
  end.

(** The priority the generators give to each type. *)
Definition priority_of (ty : telemetry_type_t) : Z :=
  match ty with
  | TELEM_POWER_DATA => 2
  | _ => 1
  end.

(** The uptime field of the System packets among the given packets. *)
Definition uptime_seconds_of (l : list telemetry_packet_t) : list Z :=
  flat_map (fun p => match payload p with
                     | system b => [SystemTelem.uptime_seconds b]
                     | _ => []
                     end) l.

(** An integer between two bounds, both included. *)
Definition within (lo hi x : Z) : bool := (lo <=? x) && (x <=? hi).

(** Where the collector stands in its cycle when [n] store calls were made:
    its four calls per cycle keep the count in step with its position. *)
Definition cycle_phase (pc : collector_pc) (n : Z) : Prop :=
  match pc with
  | C_Init => n = 0
  | C_System | C_Delay => n mod 4 = 0
  | C_Power => n mod 4 = 1
  | C_Temperature => n mod 4 = 2
  | C_Subsystem => n mod 4 = 3
  end.

(** The types of [n] packets generated in a row from the start. *)
Definition typing (n : nat) : list telemetry_type_t :=
  map (fun i => type_of_sequence (Z.of_nat i)) (seq 0 n).

(** A float whose exact value is below a rational. *)
Definition strictly_below (hi : Q) (x : spec_float) : bool :=
  negb (Qle_bool hi (F32.to_Q x)).

(** The four integer readings the Temperature generator derives from one
    value of the virtual sensor lie in the ranges given. *)
Definition readings_in_range (t : spec_float) : bool :=
  within 25 39 (F32.to_int t)
  && within 20 34 (F32.to_int (F32.sub t (F32.of_Z 5)))
  && within 28 42 (F32.to_int (F32.add t (F32.of_Z 3)))
  && within 15 29 (F32.to_int (F32.sub t (F32.of_Z 10))).

(** ** Vocabulary of the proofs *)

(** States the program can be in: the booted one and every state one event
    later than such a state. *)
Inductive reachable (cfg : config) : world -> Prop :=
| reachable_boot : reachable cfg boot
| reachable_step e s : reachable cfg s -> reachable cfg (step cfg e s).

(** [generated cfg ty prio s s' p ok]: from [s], a generator stamped packet
    [p] with type [ty] and priority [prio], called the store once with it,
    got answer [ok], and left the program in [s']. *)
Record generated (cfg : config) (ty : telemetry_type_t) (prio : Z)
    (s s' : world) (p : telemetry_packet_t) (ok : bool) : Prop := {
  gen_log : store_log s' = store_log s ++ [(p, ok)];
  gen_header :
    header p = {| type := ty; timestamp := xTickCount s;
                  sequence := sequence_number (generators s);
                  priority := prio |};
  gen_payload : payload_type (payload p) = ty;
  gen_ok : ok = (length (storage s) <? capacity cfg)%nat;
  gen_storage : storage s' = if ok then storage s ++ [p] else storage s;
  gen_sequence :
    sequence_number (generators s') = u16 (sequence_number (generators s) + 1);
  gen_tick : xTickCount s' = xTickCount s;
  gen_collector : collector s' = collector s;
  gen_processor : processor s' = processor s;
  gen_transmitter : transmitter s' = transmitter s;
  gen_delivered : delivered s' = delivered s
}.

(** The task-local counter of consumer [c] went up by one, the other one
    stayed. *)
Definition counted (c : consumer) (s s' : world) : Prop :=
  match c with
  | Processor =>
      processed_count (processor s') = u32 (processed_count (processor s) + 1)
      /\ transmission_count (transmitter s') = transmission_count (transmitter s)
  | Transmitter =>
      processed_count (processor s') = processed_count (processor s)
      /\ transmission_count (transmitter s')
         = u32 (transmission_count (transmitter s) + 1)
  end.

(** Both task-local counters stayed. *)
Definition same_counts (s s' : world) : Prop :=
  processed_count (processor s') = processed_count (processor s)
  /\ transmission_count (transmitter s') = transmission_count (transmitter s).

(** The four things a step can do to the packet flow: nothing, initialise
    the storage, record one store call, or hand the oldest packet to a
    consumer. *)
Inductive flow (cfg : config) (s s' : world) : Prop :=
| flow_none :
    store_log s' = store_log s ->
    storage s' = storage s ->
    delivered s' = delivered s ->
    generators s' = generators s ->
    same_counts s s' ->
    flow cfg s s'
| flow_init :
    c_pc (collector s) = C_Init ->
    store_log s' = store_log s ->
    storage s' = [] ->
    delivered s' = delivered s ->
    generators s' = generators s ->
    same_counts s s' ->
    flow cfg s s'
| flow_store p ok :
    c_pc (collector s) <> C_Init ->
    seq_of p = sequence_number (generators s) ->
    ok = (length (storage s) <? capacity cfg)%nat ->
    store_log s' = store_log s ++ [(p, ok)] ->
    storage s' = (if ok then storage s ++ [p] else storage s) ->
    delivered s' = delivered s ->
    sequence_number (generators s') = u16 (sequence_number (generators s) + 1) ->
    same_counts s s' ->
    flow cfg s s'
| flow_retrieve c p q :
    storage s = p :: q ->
    storage s' = q ->
    delivered s' = delivered s ++ [(c, p)] ->
    store_log s' = store_log s ->
    generators s' = generators s ->
    counted c s s' ->
    flow cfg s s'.

(** The sequence numbers of [n] packets in a row, from a counter at 0. *)
Definition numbering (n : nat) : list Z :=
  map (fun i => u16 (Z.of_nat i)) (seq 0 n).

(** The gate is closed at the head of the loop, is open only if the gate
    test of the iteration in progress held, and is open during a burst. *)
Definition gate_ok (t : transmitter_task) : Prop :=
  (t_pc t = T_Poll -> ground_station_available t = false)
  /\ (ground_station_available t = true -> contact_window (poll_tick t) = true)
  /\ (t_pc t = T_Burst -> ground_station_available t = true).

(** * Verification *)

Arguments u16 : simpl never.
Arguments u32 : simpl never.
Arguments pdMS_TO_TICKS : simpl never.
Arguments vTaskDelayUntil : simpl never.
Arguments read_virtual_voltage : simpl never.
Arguments read_virtual_temperature : simpl never.
Arguments F32.lit : simpl never.
Arguments F32.of_Z : simpl never.
Arguments F32.to_int : simpl never.
Arguments F32.add : simpl never.
Arguments F32.sub : simpl never.
Arguments contact_window : simpl never.
Arguments awake : simpl never.
Arguments count_down : simpl never.

(** ** Schedules and reachable states *)

Lemma run_app cfg evs1 evs2 s :
  run cfg (evs1 ++ evs2) s = run cfg evs2 (run cfg evs1 s).
Proof.
  revert s; induction evs1 as [|e evs1 IH]; intros s; simpl; [reflexivity|].
  apply IH.
Qed.

Lemma run_reachable cfg evs :
  forall s, reachable cfg s -> reachable cfg (run cfg evs s).
Proof.
  induction evs as [|e evs IH]; intros s Hs; simpl; [assumption|].
  apply IH. now constructor.
Qed.

Lemma reachable_run cfg evs : reachable cfg (run cfg evs boot).
Proof. apply run_reachable. constructor. Qed.

(** ** What one generator call does *)

(** Projections of updated records, and nothing else. *)
Ltac simpl_world :=
  cbn [generators storage xTickCount collector processor transmitter
       store_log delivered set_generators set_storage set_xTickCount
       set_collector set_processor set_transmitter set_store_log
       set_delivered sequence_number system_uptime c_pc xLastWakeTime c_sleep
       processed_count p_sleep t_pc ground_station_available
       transmission_count t_sleep poll_tick header payload type timestamp
       sequence priority payload_type fst snd post_increment_sequence
       post_increment_uptime xTaskGetTickCount goto_collector end_of_poll
       telemetry_storage_init telemetry_available_packets] in *.

Ltac generator_effect :=
  intros cfg r s; eexists;
  match goal with
  | |- generated _ _ _ _ (?g _ _ _) _ _ =>
      unfold g, telemetry_store_packet; simpl_world;
      destruct (length (storage s) <? capacity cfg)%nat eqn:Hroom;
      constructor; simpl_world; rewrite ?Hroom; reflexivity
  end.

Lemma generate_system_telemetry_generated :
  forall cfg r s, exists p,
    generated cfg TELEM_SYSTEM_STATUS 1 s (generate_system_telemetry cfg r s) p
              (length (storage s) <? capacity cfg)%nat.
Proof. generator_effect. Qed.

Lemma generate_power_telemetry_generated :
  forall cfg r s, exists p,
    generated cfg TELEM_POWER_DATA 2 s (generate_power_telemetry cfg r s) p
              (length (storage s) <? capacity cfg)%nat.
Proof. generator_effect. Qed.

Lemma generate_temperature_telemetry_generated :
  forall cfg r s, exists p,
    generated cfg TELEM_TEMPERATURE_DATA 1 s
              (generate_temperature_telemetry cfg r s) p
              (length (storage s) <? capacity cfg)%nat.
Proof. generator_effect. Qed.

Lemma generate_subsystem_telemetry_generated :
  forall cfg r s, exists p,
    generated cfg TELEM_COMMUNICATION_STATUS 1 s
              (generate_subsystem_telemetry cfg r s) p
              (length (storage s) <? capacity cfg)%nat.
Proof. generator_effect. Qed.

(** ** What one step does to the packet flow

    Whatever the event, a step either leaves the storage and the histories
    alone, initialises the storage, records one store call of the collector,
    or moves the oldest packet from the storage to one consumer. *)

Ltac flow_of_generator G :=
  eapply flow_store;
  [ congruence
  | unfold seq_of; rewrite (gen_header G); reflexivity
  | apply (gen_ok G)
  | simpl_world; apply (gen_log G)
  | simpl_world; apply (gen_storage G)
  | simpl_world; apply (gen_delivered G)
  | simpl_world; apply (gen_sequence G)
  | split; simpl_world;
    [ now rewrite (gen_processor G) | now rewrite (gen_transmitter G) ] ].

Lemma step_flow cfg e s : flow cfg s (step cfg e s).
Proof.
  destruct e as [|r| |]; unfold step.
  - apply flow_none; try split; reflexivity.
  - unfold vTelemetryCollectorTask.
    destruct (awake (c_sleep (collector s)));
      [|apply flow_none; try split; reflexivity].
    destruct (c_pc (collector s)) eqn:Hpc.
    + apply flow_init; try split; auto.
    + destruct (generate_system_telemetry_generated cfg r s) as [p G].
      flow_of_generator G.
    + destruct (generate_power_telemetry_generated cfg r s) as [p G].
      flow_of_generator G.
    + destruct (generate_temperature_telemetry_generated cfg r s) as [p G].
      flow_of_generator G.
    + destruct (generate_subsystem_telemetry_generated cfg r s) as [p G].
      flow_of_generator G.
    + destruct (vTaskDelayUntil _ _ _) as [last wait].
      apply flow_none; try split; reflexivity.
  - unfold vTelemetryProcessorTask.
    destruct (awake (p_sleep (processor s)));
      [|apply flow_none; try split; reflexivity].
    unfold telemetry_retrieve_packet.
    destruct (storage s) as [|p q] eqn:Hq.
    + apply flow_none; try split; simpl_world; auto.
    + apply flow_retrieve with (c := Processor) (p := p) (q := q);
        try split; simpl_world; auto.
  - unfold vTelemetryTransmitterTask.
    destruct (awake (t_sleep (transmitter s)));
      [|apply flow_none; try split; reflexivity].
    destruct (t_pc (transmitter s)).
    + apply flow_none; try split; reflexivity.
    + destruct (ground_station_available (transmitter s));
        [destruct (0 <? telemetry_available_packets s)|];
        apply flow_none; try split; reflexivity.
    + unfold telemetry_retrieve_packet.
      destruct (storage s) as [|p q] eqn:Hq.
      * apply flow_none; try split; simpl_world; auto.
      * apply flow_retrieve with (c := Transmitter) (p := p) (q := q);
          try split; simpl_world; auto.
Qed.

(** The collector never returns to its prologue. *)
Lemma step_keeps_init cfg e s :
  c_pc (collector (step cfg e s)) = C_Init -> c_pc (collector s) = C_Init.
Proof.
  destruct e as [|r| |]; unfold step.
  - auto.
  - unfold vTelemetryCollectorTask.
    destruct (awake (c_sleep (collector s))); [|auto].
    destruct (c_pc (collector s)); simpl_world; try discriminate; auto.
  - unfold vTelemetryProcessorTask.
    destruct (awake (p_sleep (processor s))); [|auto].
    destruct (telemetry_retrieve_packet s) as [[p|] s'] eqn:Hr;
      unfold telemetry_retrieve_packet in Hr;
      destruct (storage s); inversion Hr; subst; auto.
  - unfold vTelemetryTransmitterTask.
    destruct (awake (t_sleep (transmitter s))); [|auto].
    destruct (t_pc (transmitter s)); auto.
    + destruct (ground_station_available (transmitter s));
        [destruct (0 <? telemetry_available_packets s)|]; auto.
    + destruct (telemetry_retrieve_packet s) as [[p|] s'] eqn:Hr;
        unfold telemetry_retrieve_packet in Hr;
        destruct (storage s); inversion Hr; subst; auto.
Qed.

(** ** Arithmetic of the wrapping counters *)

Lemma u16_succ n : u16 (u16 n + 1) = u16 (n + 1).
Proof. unfold u16. apply Z.add_mod_idemp_l. discriminate. Qed.

Lemma u32_succ n : u32 (u32 n + 1) = u32 (n + 1).
Proof. unfold u32. apply Z.add_mod_idemp_l. discriminate. Qed.

Lemma u16_add_r a b : u16 (a + u16 b) = u16 (a + b).
Proof. unfold u16. apply Z.add_mod_idemp_r. discriminate. Qed.

Lemma u16_small n : 0 <= n < 65536 -> u16 n = n.
Proof. intros H. unfold u16. now apply Z.mod_small. Qed.

Lemma numbering_S n : numbering (S n) = numbering n ++ [u16 (Z.of_nat n)].
Proof. unfold numbering. now rewrite seq_S, map_app. Qed.

Lemma numbering_length n : length (numbering n) = n.
Proof. unfold numbering. now rewrite length_map, length_seq. Qed.

Lemma numbering_nth n i :
  (i < n)%nat -> nth_error (numbering n) i = Some (u16 (Z.of_nat i)).
Proof.
  intros Hi. unfold numbering.
  rewrite nth_error_map, nth_error_nth' with (d := 0%nat)
    by now rewrite length_seq.
  now rewrite seq_nth.
Qed.

Lemma numbering_NoDup n : Z.of_nat n <= 65536 -> NoDup (numbering n).
Proof.
  induction n as [|n IH]; intros Hn; [constructor|].
  rewrite numbering_S. apply NoDup_app.
  - apply IH; lia.
  - repeat constructor. intros [].
  - intros x Hx [Heq|[]]. subst x.
    unfold numbering in Hx. apply in_map_iff in Hx as [i [Hi Hin]].
    apply in_seq in Hin.
    rewrite !u16_small in Hi by lia. lia.
Qed.

(** ** Invariants of reachable states *)

(** Until the collector has run its prologue nothing was stored. *)
Lemma inv_init cfg s :
  reachable cfg s ->
  c_pc (collector s) = C_Init -> store_log s = [] /\ storage s = [].
Proof.
  induction 1 as [|e s Hs IH]; intros Hpc; [split; reflexivity|].
  destruct (IH (step_keeps_init _ _ _ Hpc)) as [Hlog Hq].
  destruct (step_flow cfg e s)
    as [Hl Hs' _ _ _|_ Hl Hs' _ _ _|p ok Hne _ _ _ _ _ _ _|c p q Hs0 _ _ _ _ _].
  - now rewrite Hl, Hs'.
  - now rewrite Hl, Hs'.
  - elim Hne. now apply step_keeps_init in Hpc.
  - rewrite Hq in Hs0. discriminate.
Qed.

(** The counter equals the number of store calls so far, and the n-th call
    carried the number n (modulo 2^16). *)
Lemma inv_sequence cfg s :
  reachable cfg s ->
  sequence_number (generators s) = u16 (Z.of_nat (length (store_log s)))
  /\ map (fun x => seq_of (fst x)) (store_log s)
     = numbering (length (store_log s)).
Proof.
  induction 1 as [|e s Hs [IHn IHl]]; [split; reflexivity|].
  destruct (step_flow cfg e s)
    as [Hl _ _ Hg _|_ Hl _ _ Hg _|p ok _ Hp _ Hl _ _ Hn _|c p q _ _ _ Hl Hg _];
    try (rewrite Hl, Hg; now split).
  rewrite Hl, Hn, length_app, map_app, IHl, Nat.add_1_r, numbering_S.
  cbn [length map fst]. rewrite Hp, IHn. split; [|reflexivity].
  rewrite u16_succ. f_equal. lia.
Qed.

(** FIFO hand-over: what was taken out, followed by what is still inside, is
    what the storage accepted, in the same order. *)
Lemma inv_flow cfg s :
  reachable cfg s -> dequeued s ++ storage s = stored s.
Proof.
  unfold dequeued, stored.
  induction 1 as [|e s Hs IH]; [reflexivity|].
  destruct (step_flow cfg e s)
    as [Hl Hq Hd _ _|Hpc Hl Hq Hd _ _|p ok _ _ _ Hl Hq Hd _ _
        |c p q Hq0 Hq Hd Hl _ _].
  - now rewrite Hl, Hq, Hd.
  - destruct (inv_init Hs Hpc) as [_ Hq0].
    rewrite Hl, Hq, Hd, <- IH, Hq0. reflexivity.
  - rewrite Hl, Hq, Hd, filter_app, map_app, <- IH.
    destruct ok; cbn [filter snd map fst].
    + now rewrite app_assoc.
    + now rewrite app_nil_r.
  - rewrite Hl, Hq, Hd, map_app, <- IH, Hq0, <- app_assoc. reflexivity.
Qed.

Lemma retrieved_by_snoc c c' p s l :
  delivered s = l ++ [(c', p)] ->
  map snd (filter (is_consumer c) (delivered s))
  = map snd (filter (is_consumer c) l)
    ++ (if is_consumer c (c', p) then [p] else []).
Proof.
  intros ->. rewrite filter_app, map_app. cbn [filter].
  now destruct (is_consumer c (c', p)).
Qed.

(** Each task-local counter is the number of packets its task retrieved. *)
Lemma inv_counts cfg s :
  reachable cfg s ->
  processed_count (processor s)
  = u32 (Z.of_nat (length (retrieved_by Processor s)))
  /\ transmission_count (transmitter s)
     = u32 (Z.of_nat (length (retrieved_by Transmitter s))).
Proof.
  unfold retrieved_by.
  induction 1 as [|e s Hs [IHp IHt]]; [split; reflexivity|].
  destruct (step_flow cfg e s)
    as [_ _ Hd _ [Hp Ht]|_ _ _ Hd _ [Hp Ht]|p ok _ _ _ _ _ Hd _ [Hp Ht]
        |c p q _ _ Hd _ _ Hc];
    try (rewrite Hd, Hp, Ht; now split).
  rewrite (@retrieved_by_snoc Processor _ _ _ _ Hd), (@retrieved_by_snoc Transmitter _ _ _ _ Hd).
  destruct c; destruct Hc as [Hp Ht]; rewrite Hp, Ht; cbn [is_consumer fst];
    rewrite !length_app; cbn [length]; rewrite ?Nat.add_0_r, ?Nat.add_1_r;
    split; auto; rewrite ?IHp, ?IHt, u32_succ; f_equal; lia.
Qed.

(** The storage never holds more than its capacity. *)
Lemma inv_capacity cfg s :
  reachable cfg s -> (length (storage s) <= capacity cfg)%nat.
Proof.
  induction 1 as [|e s Hs IH]; [cbn; lia|].
  destruct (step_flow cfg e s)
    as [_ Hq _ _ _|_ _ Hq _ _ _|p ok _ _ Hok _ Hq _ _ _|c p q Hq0 Hq _ _ _ _];
    rewrite Hq; cbn [length]; try lia.
  - destruct ok; [|assumption].
    symmetry in Hok. apply Nat.ltb_lt in Hok.
    rewrite length_app. cbn [length]. lia.
  - rewrite Hq0 in IH. cbn [length] in IH. lia.
Qed.

(** ** Lists of sequence numbers *)

Lemma consecutive_numbering n : consecutive (numbering n).
Proof.
  intros i a b Ha Hb.
  assert (Hi : (S i < n)%nat).
  { rewrite <- (numbering_length n). apply nth_error_Some. congruence. }
  rewrite numbering_nth in Ha, Hb by lia.
  inversion Ha; inversion Hb; subst.
  rewrite u16_succ. f_equal. lia.
Qed.

Lemma consecutive_prefix l1 l2 : consecutive (l1 ++ l2) -> consecutive l1.
Proof.
  intros H i a b Ha Hb. apply (H i).
  - rewrite nth_error_app1; [assumption|].
    apply nth_error_Some. congruence.
  - rewrite nth_error_app1; [assumption|].
    apply nth_error_Some. congruence.
Qed.

Lemma filter_rejected (l : list (telemetry_packet_t * bool)) :
  forallb (fun x => negb (snd x)) l = true -> filter snd l = [].
Proof.
  induction l as [|[p ok] l IH]; cbn; [reflexivity|].
  destruct ok; cbn; [discriminate|]. exact IH.
Qed.

Lemma NoDup_map_filter {A B} (f : A -> B) (g : A -> bool) l :
  NoDup (map f l) -> NoDup (map f (filter g l)).
Proof.
  induction l as [|x l IH]; cbn; intros H; [constructor|].
  inversion H as [|? ? Hx Hl]; subst.
  destruct (g x); cbn; auto.
  constructor; auto.
  intros Hin. apply Hx.
  apply in_map_iff in Hin as [y [Hy Hin]].
  apply filter_In in Hin as [Hin _].
  apply in_map_iff. eauto.
Qed.

Lemma NoDup_map_same {A B} (f : A -> B) l x y :
  NoDup (map f l) -> In x l -> In y l -> f x = f y -> x = y.
Proof.
  induction l as [|z l IH]; cbn; intros H Hx Hy Hf; [contradiction|].
  inversion H as [|? ? Hz Hl]; subst.
  destruct Hx as [->|Hx], Hy as [->|Hy]; auto.
  - elim Hz. rewrite Hf. now apply in_map.
  - elim Hz. rewrite <- Hf. now apply in_map.
Qed.

Lemma delivered_split l :
  length (map snd l)
  = (length (map snd (filter (is_consumer Processor) l))
     + length (map snd (filter (is_consumer Transmitter) l)))%nat.
Proof.
  induction l as [|[[|] p] l IH]; cbn; [reflexivity| |]; rewrite IH; lia.
Qed.

(** While at most 2^16 packets were generated, no two packets handed to the
    store are equal: their sequence numbers differ. *)
Lemma store_log_NoDup cfg s :
  reachable cfg s ->
  Z.of_nat (length (store_log s)) <= 65536 ->
  NoDup (map fst (store_log s)).
Proof.
  intros Hs Hn. destruct (inv_sequence Hs) as [_ Hnum].
  apply (NoDup_map_inv seq_of). rewrite map_map, Hnum.
  now apply numbering_NoDup.
Qed.

Lemma dequeued_NoDup cfg s :
  reachable cfg s ->
  Z.of_nat (length (store_log s)) <= 65536 ->
  NoDup (dequeued s).
Proof.
  intros Hs Hn.
  apply NoDup_app_remove_r with (l' := storage s).
  rewrite (inv_flow Hs). unfold stored.
  apply NoDup_map_filter. now apply store_log_NoDup with (cfg := cfg).
Qed.

(** * Sequence numbers along the queue *)

(** C1 (as amended): the sequence counter starts at 0 and every generated
    packet takes its current value, the counter then advancing by one modulo
    2^16, whichever generator runs; and provided no store call failed during
    the run, any two packets dequeued one after the other carry sequence
    numbers that differ by exactly one modulo 2^16. *)
Theorem sequence_consecutive_without_drops :
  forall cfg evs,
    let s := run cfg evs boot in
    forallb snd (store_log s) = true ->
    sequence_number (generators boot) = 0
    /\ map (fun x => seq_of (fst x)) (store_log s)
       = numbering (length (store_log s))
    /\ sequence_number (generators s) = u16 (Z.of_nat (length (store_log s)))
    /\ consecutive (map seq_of (dequeued s)).
Proof.
  intros cfg evs s Hall.
  pose proof (reachable_run cfg evs) as Hs. fold s in Hs.
  destruct (inv_sequence Hs) as [Hn Hnum].
  repeat split; auto.
  apply consecutive_prefix with (l2 := map seq_of (storage s)).
  rewrite <- map_app, (inv_flow Hs). unfold stored.
  rewrite (forallb_filter_id _ _ Hall), map_map, Hnum.
  apply consecutive_numbering.
Qed.

(** A run the amended C1 applies to: one collector cycle into a storage of
    four, then the processor takes the four packets. *)
Lemma sequence_consecutive_without_drops_witness :
  let s := run demo_config
             ([RunCollector quiet] ++ collector_cycle ++ repeat RunProcessor 4)
             boot in
  forallb snd (store_log s) = true
  /\ map seq_of (dequeued s) = [0; 1; 2; 3]
  /\ consecutive (map seq_of (dequeued s)).
Proof.
  split; [reflexivity|]. split; [reflexivity|].
  apply (sequence_consecutive_without_drops demo_config
           ([RunCollector quiet] ++ collector_cycle ++ repeat RunProcessor 4)).
  reflexivity.
Defined.

(** C1 as stated fails: with a storage of four packets, twelve packets are
    generated, five are dequeued, and the last two dequeued carry 3 and 8. *)
Lemma sequence_gap_counterexample :
  let s := run demo_config gap_schedule boot in
  Z.of_nat (length (store_log s)) < 65536
  /\ map seq_of (dequeued s) = [0; 1; 2; 3; 8]
  /\ ~ consecutive (map seq_of (dequeued s)).
Proof.
  assert (H : map seq_of (dequeued (run demo_config gap_schedule boot))
              = [0; 1; 2; 3; 8]) by (vm_compute; reflexivity).
  cbv zeta. split; [vm_compute; reflexivity|]. split; [exact H|].
  rewrite H. intros Hc.
  specialize (Hc 3%nat 3 8 eq_refl eq_refl). discriminate Hc.
Qed.

(** C10: every generator advances the sequence counter by one whether or not
    the storage then accepts its packet. Hence if, in the history of store
    calls, [p] was accepted, then the calls in [mid] all failed, then [r]
    was accepted, the two packets are neighbours in the FIFO order of the
    accepted packets and [r] carries the number of [p] plus one plus the
    number of failed calls; with at least one failure and fewer than 65536
    packets generated this is not the number of [p] plus one. *)
Theorem sequence_gap_after_failed_store :
  forall cfg evs,
    let s := run cfg evs boot in
    (forall r w,
        let next := u16 (sequence_number (generators w) + 1) in
        sequence_number (generators (generate_system_telemetry cfg r w)) = next
        /\ sequence_number (generators (generate_power_telemetry cfg r w)) = next
        /\ sequence_number (generators (generate_temperature_telemetry cfg r w))
           = next
        /\ sequence_number (generators (generate_subsystem_telemetry cfg r w))
           = next)
    /\ (forall l1 p mid r l2,
           store_log s = l1 ++ (p, true) :: mid ++ (r, true) :: l2 ->
           forallb (fun x => negb (snd x)) mid = true ->
           seq_of r = u16 (seq_of p + 1 + Z.of_nat (length mid))
           /\ (exists d1 d2, dequeued s ++ storage s = d1 ++ p :: r :: d2)
           /\ (mid <> [] ->
               Z.of_nat (length (store_log s)) < 65536 ->
               seq_of r <> u16 (seq_of p + 1))).
Proof.
  intros cfg evs s.
  pose proof (reachable_run cfg evs) as Hs. fold s in Hs.
  split.
  { intros r w next.
    destruct (generate_system_telemetry_generated cfg r w) as [p1 G1].
    destruct (generate_power_telemetry_generated cfg r w) as [p2 G2].
    destruct (generate_temperature_telemetry_generated cfg r w) as [p3 G3].
    destruct (generate_subsystem_telemetry_generated cfg r w) as [p4 G4].
    repeat split;
      [apply (gen_sequence G1)|apply (gen_sequence G2)
       |apply (gen_sequence G3)|apply (gen_sequence G4)]. }
  intros l1 p mid r l2 Hlog Hmid.
  destruct (inv_sequence Hs) as [_ Hnum].
  assert (Hlen : length (store_log s)
                 = (length l1 + S (length mid + S (length l2)))%nat).
  { rewrite Hlog, length_app. cbn [length]. rewrite length_app. reflexivity. }
  assert (Hp : seq_of p = u16 (Z.of_nat (length l1))).
  { assert (H : nth_error (map (fun x => seq_of (fst x)) (store_log s))
                          (length l1) = Some (seq_of p)).
    { rewrite Hlog, map_app, nth_error_app2 by (rewrite length_map; lia).
      rewrite length_map, Nat.sub_diag. reflexivity. }
    rewrite Hnum, numbering_nth in H by lia. congruence. }
  assert (Hr : seq_of r = u16 (Z.of_nat (length l1 + S (length mid)))).
  { assert (H : nth_error (map (fun x => seq_of (fst x)) (store_log s))
                          (length l1 + S (length mid)) = Some (seq_of r)).
    { rewrite Hlog, map_app, nth_error_app2 by (rewrite length_map; lia).
      rewrite length_map.
      replace (length l1 + S (length mid) - length l1)%nat
        with (S (length mid)) by lia.
      cbn [map nth_error]. rewrite map_app, nth_error_app2
        by (rewrite length_map; lia).
      rewrite length_map, Nat.sub_diag. reflexivity. }
    rewrite Hnum, numbering_nth in H by lia. congruence. }
  split; [|split].
  - rewrite Hr, Hp. unfold u16.
    rewrite <- Z.add_assoc, Z.add_mod_idemp_l by discriminate.
    f_equal. lia.
  - rewrite (inv_flow Hs). unfold stored. rewrite Hlog.
    exists (map fst (filter snd l1)), (map fst (filter snd l2)).
    rewrite filter_app, map_app. cbn [filter snd map fst].
    rewrite filter_app, (filter_rejected _ Hmid). reflexivity.
  - intros Hne Hsmall.
    assert (0 < length mid)%nat by (destruct mid; [congruence|cbn; lia]).
    rewrite Hr, Hp, u16_succ, !u16_small by lia. lia.
Qed.

(** A run C10 applies to: in [gap_schedule] the packet numbered 3 is
    accepted, the four packets of the second cycle are refused, and the next
    accepted packet is numbered 8; both are dequeued, one after the other. *)
Lemma sequence_gap_after_failed_store_witness :
  let s := run demo_config gap_schedule boot in
  exists l1 p mid r l2,
    store_log s = l1 ++ (p, true) :: mid ++ (r, true) :: l2
    /\ forallb (fun x => negb (snd x)) mid = true
    /\ mid <> []
    /\ Z.of_nat (length (store_log s)) < 65536
    /\ seq_of p = 3 /\ seq_of r = 8
    /\ map seq_of (dequeued s) = [0; 1; 2; 3; 8]
    /\ seq_of r <> u16 (seq_of p + 1).
Proof.
  cbv zeta.
  let log := eval vm_compute in (store_log (run demo_config gap_schedule boot)) in
  assert (E : store_log (run demo_config gap_schedule boot) = log)
    by (vm_compute; reflexivity);
  match log with
  | ?a0 :: ?a1 :: ?a2 :: (?p, _) :: ?m0 :: ?m1 :: ?m2 :: ?m3
      :: (?r, _) :: ?l2 =>
      exists [a0; a1; a2], p, [m0; m1; m2; m3], r, l2;
      assert (Hlog : store_log (run demo_config gap_schedule boot)
                     = [a0; a1; a2] ++ (p, true) :: [m0; m1; m2; m3]
                       ++ (r, true) :: l2) by exact E;
      assert (Hmid : forallb (fun x : telemetry_packet_t * bool =>
                                negb (snd x)) [m0; m1; m2; m3] = true)
        by reflexivity;
      assert (Hne : [m0; m1; m2; m3] <> []) by discriminate
  end.
  assert (Hsmall : Z.of_nat (length (store_log
                     (run demo_config gap_schedule boot))) < 65536)
    by (rewrite E; reflexivity).
  split; [exact Hlog|]. split; [exact Hmid|]. split; [exact Hne|].
  split; [exact Hsmall|].
  split; [reflexivity|]. split; [reflexivity|].
  split; [vm_compute; reflexivity|].
  exact (proj2 (proj2 (proj2 (sequence_gap_after_failed_store
           demo_config gap_schedule) _ _ _ _ _ Hlog Hmid)) Hne Hsmall).
Defined.

(** * The transmitter's gate *)

Lemma other_tasks_keep_gate cfg e s :
  e <> RunTransmitter ->
  t_pc (transmitter (step cfg e s)) = t_pc (transmitter s)
  /\ ground_station_available (transmitter (step cfg e s))
     = ground_station_available (transmitter s)
  /\ poll_tick (transmitter (step cfg e s)) = poll_tick (transmitter s).
Proof.
  intros He. destruct e as [|r| |]; unfold step; [| | |congruence].
  - repeat split.
  - unfold vTelemetryCollectorTask.
    destruct (awake (c_sleep (collector s))); [|repeat split].
    destruct (c_pc (collector s)); simpl_world.
    + repeat split.
    + destruct (generate_system_telemetry_generated cfg r s) as [p G].
      rewrite (gen_transmitter G). repeat split.
    + destruct (generate_power_telemetry_generated cfg r s) as [p G].
      rewrite (gen_transmitter G). repeat split.
    + destruct (generate_temperature_telemetry_generated cfg r s) as [p G].
      rewrite (gen_transmitter G). repeat split.
    + destruct (generate_subsystem_telemetry_generated cfg r s) as [p G].
      rewrite (gen_transmitter G). repeat split.
    + destruct (vTaskDelayUntil _ _ _). repeat split.
  - unfold vTelemetryProcessorTask, telemetry_retrieve_packet.
    destruct (awake (p_sleep (processor s))); [|repeat split].
    destruct (storage s); repeat split.
Qed.

Lemma inv_gate cfg s : reachable cfg s -> gate_ok (transmitter s).
Proof.
  induction 1 as [|e s Hs (Hpoll & Hopen & Hburst)].
  { repeat split; cbn; congruence. }
  assert (Hdec : e = RunTransmitter \/ e <> RunTransmitter)
    by (destruct e; auto; right; discriminate).
  destruct Hdec as [->|He].
  - unfold step, vTelemetryTransmitterTask, telemetry_retrieve_packet, gate_ok,
      xTaskGetTickCount, telemetry_available_packets.
    destruct (awake (t_sleep (transmitter s))); [|repeat split; assumption].
    destruct (t_pc (transmitter s)) eqn:Hpc.
    + rewrite Hpoll by reflexivity. simpl_world.
      destruct (contact_window (xTickCount s)) eqn:Hw;
        repeat split; congruence.
    + destruct (ground_station_available (transmitter s)) eqn:Hg;
        [destruct (0 <? Z.of_nat (length (storage s)))|];
        simpl_world; repeat split; auto; congruence.
    + destruct (storage s); simpl_world; repeat split; auto; congruence.
  - destruct (other_tasks_keep_gate cfg s He) as (Hp & Hg & Ht).
    unfold gate_ok. rewrite Hp, Hg, Ht. repeat split; assumption.
Qed.

(** A transmitter step changes the storage only during a burst. *)
Lemma transmitter_dequeues_in_burst cfg s :
  storage (step cfg RunTransmitter s) <> storage s ->
  t_pc (transmitter s) = T_Burst /\ awake (t_sleep (transmitter s)) = true.
Proof.
  unfold step, vTelemetryTransmitterTask, telemetry_retrieve_packet,
    telemetry_available_packets.
  destruct (awake (t_sleep (transmitter s))); [|congruence].
  destruct (t_pc (transmitter s)); simpl_world.
  - congruence.
  - destruct (ground_station_available (transmitter s));
      [destruct (0 <? Z.of_nat (length (storage s)))|]; simpl_world; congruence.
  - auto.
Qed.

(** C5: in every reachable state the gate is closed whenever the transmitter
    is at the head of its loop (it is never left open from an earlier
    iteration), and a transmitter step that changes the storage, or hands
    the transmitter a packet, is a step of a burst whose iteration read, at
    its poll, a tick count satisfying the gate test. *)
Theorem transmitter_dequeues_only_in_window :
  forall cfg evs,
    let s := run cfg evs boot in
    let s' := step cfg RunTransmitter s in
    (t_pc (transmitter s) = T_Poll ->
     ground_station_available (transmitter s) = false)
    /\ (storage s' <> storage s \/ delivered s' <> delivered s ->
        t_pc (transmitter s) = T_Burst
        /\ ground_station_available (transmitter s) = true
        /\ (poll_tick (transmitter s) / 1000) mod 30 = 0).
Proof.
  intros cfg evs s s'.
  destruct (inv_gate (reachable_run cfg evs)) as (Hpoll & Hopen & Hburst).
  fold s in Hpoll, Hopen, Hburst.
  split; [exact Hpoll|]. intros Hchange.
  assert (Hpc : t_pc (transmitter s) = T_Burst).
  { destruct Hchange as [Hq|Hd].
    - now apply (transmitter_dequeues_in_burst cfg s).
    - destruct (step_flow cfg RunTransmitter s)
        as [_ Hq Hd' _ _|_ _ _ Hd' _ _|p ok _ _ _ _ _ Hd' _ _
            |c p q Hq0 Hq _ _ _ _]; try (elim Hd; exact Hd').
      apply (transmitter_dequeues_in_burst cfg s).
      rewrite Hq, Hq0. intros Heq.
      apply (f_equal (@length _)) in Heq. cbn in Heq. lia. }
  repeat split; auto.
  apply Z.eqb_eq. apply Hopen. auto.
Qed.

(** A run C5 applies to: in [contested_schedule] without its last five
    events the transmitter is in a burst opened at tick 0 and its next step
    takes a packet. *)
Lemma transmitter_dequeues_only_in_window_witness :
  let s := run demo_config
             ([RunCollector quiet] ++ collector_cycle
              ++ [RunProcessor; RunTransmitter; RunTransmitter]) boot in
  storage (step demo_config RunTransmitter s) <> storage s
  /\ (poll_tick (transmitter s) / 1000) mod 30 = 0.
Proof.
  cbv zeta.
  assert (Hq : storage (step demo_config RunTransmitter
                  (run demo_config
                     ([RunCollector quiet] ++ collector_cycle
                      ++ [RunProcessor; RunTransmitter; RunTransmitter]) boot))
               <> storage (run demo_config
                     ([RunCollector quiet] ++ collector_cycle
                      ++ [RunProcessor; RunTransmitter; RunTransmitter]) boot)).
  { vm_compute. intros H. apply (f_equal (@length _)) in H. discriminate H. }
  split; [exact Hq|].
  apply (transmitter_dequeues_only_in_window demo_config
           ([RunCollector quiet] ++ collector_cycle
            ++ [RunProcessor; RunTransmitter; RunTransmitter])).
  left. exact Hq.
Defined.

(** * Competing consumers *)

(** C3: after any interleaving of the three tasks and the tick, the packets
    taken out of the storage (in the order taken, whoever took them) followed
    by the packets still inside are exactly the packets the storage accepted,
    in order. So each accepted packet is, at any time, either still inside or
    was handed to exactly one consumer; the numbers retrieved by the two
    consumers and the occupancy add up to the number of successful stores,
    and once the storage is empty the two numbers alone do. The task-local
    counters hold these numbers (modulo 2^32). While at most 65536 packets
    were generated no packet is delivered twice, and none to both tasks. *)
Theorem competing_consumers :
  forall cfg evs,
    let s := run cfg evs boot in
    let by_processor := retrieved_by Processor s in
    let by_transmitter := retrieved_by Transmitter s in
    dequeued s ++ storage s = stored s
    /\ (length by_processor + length by_transmitter + length (storage s)
        = length (stored s))%nat
    /\ (storage s = [] ->
        (length by_processor + length by_transmitter = length (stored s))%nat)
    /\ processed_count (processor s) = u32 (Z.of_nat (length by_processor))
    /\ transmission_count (transmitter s)
       = u32 (Z.of_nat (length by_transmitter))
    /\ (Z.of_nat (length (store_log s)) <= 65536 ->
        NoDup (dequeued s)
        /\ forall p, In p by_processor -> ~ In p by_transmitter).
Proof.
  intros cfg evs s by_processor by_transmitter.
  pose proof (reachable_run cfg evs) as Hs. fold s in Hs.
  pose proof (inv_flow Hs) as Hflow.
  destruct (inv_counts Hs) as [Hp Ht].
  assert (Hlen : (length by_processor + length by_transmitter
                  + length (storage s) = length (stored s))%nat).
  { rewrite <- Hflow, length_app. unfold dequeued.
    rewrite (delivered_split (delivered s)). reflexivity. }
  split; [exact Hflow|]. split; [exact Hlen|].
  split; [intros Hq; rewrite Hq in Hlen; cbn in Hlen; lia|].
  split; [exact Hp|]. split; [exact Ht|].
  intros Hn. pose proof (dequeued_NoDup Hs Hn) as Hnd.
  split; [exact Hnd|].
  intros p Hin1 Hin2.
  unfold by_processor, by_transmitter, retrieved_by in Hin1, Hin2.
  apply in_map_iff in Hin1 as [[c1 p1] [E1 Hin1]].
  apply in_map_iff in Hin2 as [[c2 p2] [E2 Hin2]].
  apply filter_In in Hin1 as [Hin1 Hc1].
  apply filter_In in Hin2 as [Hin2 Hc2].
  cbn in E1, E2. subst p1 p2.
  assert (Heq : (c1, p) = (c2, p)).
  { apply (NoDup_map_same snd (delivered s)); auto. }
  destruct c1, c2; cbn in Hc1, Hc2; congruence.
Qed.

(** A run C3 applies to: in [contested_schedule] four packets are stored,
    the processor takes two of them, the transmitter the other two, and the
    storage ends empty. *)
Lemma competing_consumers_witness :
  let s := run demo_config contested_schedule boot in
  storage s = []
  /\ map seq_of (retrieved_by Processor s) = [0; 2]
  /\ map seq_of (retrieved_by Transmitter s) = [1; 3]
  /\ (length (retrieved_by Processor s) + length (retrieved_by Transmitter s)
      = length (stored s))%nat
  /\ NoDup (dequeued s).
Proof.
  cbv zeta.
  pose proof (competing_consumers demo_config contested_schedule) as H.
  cbv zeta in H. destruct H as (_ & _ & Hdrained & _ & _ & Hnd).
  split; [vm_compute; reflexivity|].
  split; [vm_compute; reflexivity|].
  split; [vm_compute; reflexivity|].
  split.
  - apply Hdrained. vm_compute. reflexivity.
  - apply Hnd. vm_compute. discriminate.
Defined.

(** * One poll of the transmitter *)

Lemma pause_transmitter cfg n :
  forall s,
    let s' := run cfg (repeat Tick n) s in
    storage s' = storage s
    /\ delivered s' = delivered s
    /\ t_pc (transmitter s') = t_pc (transmitter s)
    /\ ground_station_available (transmitter s')
       = ground_station_available (transmitter s)
    /\ transmission_count (transmitter s') = transmission_count (transmitter s)
    /\ (t_sleep (transmitter s) <= Z.of_nat n ->
        awake (t_sleep (transmitter s')) = true).
Proof.
  induction n as [|n IH]; intros s; cbn [repeat run].
  - repeat split. intros H. unfold awake. now apply Z.leb_le.
  - destruct (IH (step cfg Tick s)) as (Hq & Hd & Hpc & Hg & Hc & Hw).
    cbv zeta. rewrite Hq, Hd, Hpc, Hg, Hc. repeat split.
    intros H. apply Hw. unfold step, xTaskIncrementTick. simpl_world.
    unfold count_down. destruct (0 <? t_sleep (transmitter s)) eqn:Hpos; lia.
Qed.

(** One packet of a burst: retrieve, count, print, wait out the delay. *)
Lemma burst_packet_effect cfg s p q :
  t_pc (transmitter s) = T_Burst ->
  awake (t_sleep (transmitter s)) = true ->
  storage s = p :: q ->
  let s' := run cfg (burst_packet cfg) s in
  storage s' = q
  /\ delivered s' = delivered s ++ [(Transmitter, p)]
  /\ t_pc (transmitter s') = T_Burst
  /\ ground_station_available (transmitter s')
     = ground_station_available (transmitter s)
  /\ transmission_count (transmitter s')
     = u32 (transmission_count (transmitter s) + 1)
  /\ awake (t_sleep (transmitter s')) = true.
Proof.
  intros Hpc Hw Hq. unfold burst_packet, pause. cbn [run].
  set (s1 := step cfg RunTransmitter s).
  assert (H1 : storage s1 = q
               /\ delivered s1 = delivered s ++ [(Transmitter, p)]
               /\ t_pc (transmitter s1) = T_Burst
               /\ ground_station_available (transmitter s1)
                  = ground_station_available (transmitter s)
               /\ transmission_count (transmitter s1)
                  = u32 (transmission_count (transmitter s) + 1)
               /\ t_sleep (transmitter s1) = pdMS_TO_TICKS cfg 50).
  { unfold s1, step, vTelemetryTransmitterTask, telemetry_retrieve_packet.
    rewrite Hw, Hpc, Hq. simpl_world. repeat split. }
  destruct H1 as (Hq1 & Hd1 & Hpc1 & Hg1 & Hc1 & Hs1).
  destruct (pause_transmitter cfg (Z.to_nat (pdMS_TO_TICKS cfg 50)) s1)
    as (Hq2 & Hd2 & Hpc2 & Hg2 & Hc2 & Hw2).
  cbv zeta. rewrite Hq2, Hd2, Hpc2, Hg2, Hc2, Hq1, Hd1, Hpc1, Hg1, Hc1.
  repeat split. apply Hw2. rewrite Hs1. lia.
Qed.

Lemma u32_add_l a b : u32 (u32 a + b) = u32 (a + b).
Proof. unfold u32. apply Z.add_mod_idemp_l. discriminate. Qed.

(** The loop of a burst, alone with the storage: it takes every packet, in
    order, and then closes the gate and ends the poll. *)
Lemma burst_drains cfg :
  forall q s,
    storage s = q ->
    t_pc (transmitter s) = T_Burst ->
    awake (t_sleep (transmitter s)) = true ->
    let s' := run cfg (concat (repeat (burst_packet cfg) (length q))
                       ++ [RunTransmitter]) s in
    storage s' = []
    /\ delivered s' = delivered s ++ map (pair Transmitter) q
    /\ u32 (transmission_count (transmitter s'))
       = u32 (transmission_count (transmitter s) + Z.of_nat (length q))
    /\ ground_station_available (transmitter s') = false
    /\ t_pc (transmitter s') = T_Poll
    /\ t_sleep (transmitter s') = pdMS_TO_TICKS cfg 2000.
Proof.
  induction q as [|p q IH]; intros s Hq Hpc Hw.
  - cbn [length repeat concat app run].
    unfold step, vTelemetryTransmitterTask, telemetry_retrieve_packet.
    rewrite Hw, Hpc, Hq. simpl_world. cbn [map].
    rewrite app_nil_r, Z.add_0_r. repeat split. exact Hq.
  - cbn [length repeat concat]. rewrite <- app_assoc, run_app.
    destruct (burst_packet_effect cfg s Hpc Hw Hq)
      as (Hq1 & Hd1 & Hpc1 & Hg1 & Hc1 & Hw1).
    destruct (IH _ Hq1 Hpc1 Hw1) as (Hq2 & Hd2 & Hc2 & Hg2 & Hpc2 & Hs2).
    cbv zeta. rewrite Hq2, Hd2, Hc2, Hg2, Hpc2, Hs2, Hd1, Hc1.
    cbn [map]. rewrite <- app_assoc, u32_add_l. repeat split.
    f_equal. lia.
Qed.

Lemma u32_idem a : u32 (u32 a) = u32 a.
Proof. unfold u32. apply Z.mod_mod. discriminate. Qed.

(** C4: one poll iteration of the transmitter, from any reachable state in
    which the task is ready to run.
    - At the gate test the gate becomes open exactly when the tick count
      divided by 1000 is a multiple of 30; nothing is dequeued by that step.
    - With the gate closed the iteration ends at once: nothing is dequeued
      and the task waits 2000 ms.
    - With the gate open, the transmitter running through its burst takes
      every stored packet in FIFO order, counts each one, and ends with the
      gate closed and the 2000 ms wait; with nothing stored the gate is
      closed just the same and nothing is taken.
    - Each step of the burst takes the oldest packet, adds one to the
      transmitted count and waits 50 ms; when the retrieve reports the
      storage empty the gate is closed and the iteration ends. *)
Theorem transmitter_poll_iteration :
  forall cfg evs,
    let s := run cfg evs boot in
    let t := transmitter s in
    let s1 := step cfg RunTransmitter s in
    awake (t_sleep t) = true ->
    (t_pc t = T_Poll ->
     t_pc (transmitter s1) = T_Window
     /\ storage s1 = storage s
     /\ (ground_station_available (transmitter s1) = true
         <-> (xTickCount s / 1000) mod 30 = 0))
    /\ (t_pc t = T_Window -> ground_station_available t = false ->
        storage s1 = storage s
        /\ delivered s1 = delivered s
        /\ ground_station_available (transmitter s1) = false
        /\ t_pc (transmitter s1) = T_Poll
        /\ t_sleep (transmitter s1) = pdMS_TO_TICKS cfg 2000)
    /\ (t_pc t = T_Window -> ground_station_available t = true ->
        let s' := run cfg (burst_schedule cfg (length (storage s))) s in
        storage s' = []
        /\ delivered s' = delivered s ++ map (pair Transmitter) (storage s)
        /\ transmission_count (transmitter s')
           = u32 (transmission_count t + Z.of_nat (length (storage s)))
        /\ ground_station_available (transmitter s') = false
        /\ t_pc (transmitter s') = T_Poll
        /\ t_sleep (transmitter s') = pdMS_TO_TICKS cfg 2000)
    /\ (t_pc t = T_Burst ->
        match storage s with
        | p :: q =>
            storage s1 = q
            /\ delivered s1 = delivered s ++ [(Transmitter, p)]
            /\ transmission_count (transmitter s1)
               = u32 (transmission_count t + 1)
            /\ t_sleep (transmitter s1) = pdMS_TO_TICKS cfg 50
            /\ t_pc (transmitter s1) = T_Burst
        | [] =>
            storage s1 = []
            /\ delivered s1 = delivered s
            /\ ground_station_available (transmitter s1) = false
            /\ t_pc (transmitter s1) = T_Poll
            /\ t_sleep (transmitter s1) = pdMS_TO_TICKS cfg 2000
        end).
Proof.
  intros cfg evs s t s1 Hw.
  pose proof (reachable_run cfg evs) as Hs. fold s in Hs.
  destruct (inv_gate Hs) as (Hpoll & _ & _).
  unfold t in *. clear t.
  split; [|split; [|split]].
  - intros Hpc. unfold s1, step, vTelemetryTransmitterTask, xTaskGetTickCount.
    rewrite Hw, Hpc, (Hpoll Hpc). simpl_world.
    split; [reflexivity|]. split; [reflexivity|].
    unfold contact_window.
    destruct ((xTickCount s / 1000) mod 30 =? 0) eqn:Hgate.
    + apply Z.eqb_eq in Hgate. tauto.
    + apply Z.eqb_neq in Hgate. split; [discriminate|contradiction].
  - intros Hpc Hg. unfold s1, step, vTelemetryTransmitterTask.
    rewrite Hw, Hpc, Hg. simpl_world. repeat split.
  - intros Hpc Hg.
    assert (Hs' : reachable cfg
                    (run cfg (burst_schedule cfg (length (storage s))) s))
      by now apply run_reachable.
    destruct (inv_counts Hs') as [_ Hrange]. clear Hs'.
    destruct (inv_counts Hs) as [_ Hrange0].
    revert Hrange. destruct (storage s) as [|p q] eqn:Hq; intros Hrange.
    + cbn [length burst_schedule run].
      unfold step, vTelemetryTransmitterTask, telemetry_available_packets.
      rewrite Hw, Hpc, Hg, Hq. cbn [length Z.of_nat Z.ltb Z.compare map].
      simpl_world. rewrite app_nil_r, Z.add_0_r, Hrange0, u32_idem.
      repeat split. exact Hq.
    + set (s0 := step cfg RunTransmitter s).
      assert (H0 : storage s0 = p :: q
                   /\ delivered s0 = delivered s
                   /\ transmission_count (transmitter s0)
                      = transmission_count (transmitter s)
                   /\ t_pc (transmitter s0) = T_Burst
                   /\ awake (t_sleep (transmitter s0)) = true).
      { unfold s0, step, vTelemetryTransmitterTask, telemetry_available_packets.
        rewrite Hw, Hpc, Hg, Hq.
        replace (0 <? Z.of_nat (length (p :: q))) with true
          by (symmetry; apply Z.ltb_lt; cbn [length]; lia).
        simpl_world. repeat split; assumption. }
      destruct H0 as (Hq0 & Hd0 & Hc0 & Hpc0 & Hw0).
      destruct (@burst_drains cfg _ _ Hq0 Hpc0 Hw0)
        as (Hq2 & Hd2 & Hc2 & Hg2 & Hpc2 & Hs2).
      cbn [length burst_schedule run] in *. fold s0. fold s0 in Hrange.
      rewrite Hq2, Hd2, Hg2, Hpc2, Hs2, Hd0. repeat split.
      rewrite Hrange, <- Hc0, <- Hc2, Hrange, u32_idem. reflexivity.
  - intros Hpc. unfold s1, step, vTelemetryTransmitterTask,
      telemetry_retrieve_packet.
    rewrite Hw, Hpc. destruct (storage s) as [|p q] eqn:Hq; simpl_world;
      repeat split; assumption.
Qed.

(** A run C4 applies to: the collector fills the storage at tick 0, the
    transmitter polls (tick 0 is a contact window) and its burst takes the
    four packets in order. *)
Lemma transmitter_poll_iteration_witness :
  let s := run demo_config
             ([RunCollector quiet] ++ collector_cycle ++ [RunTransmitter])
             boot in
  let s' := run demo_config (burst_schedule demo_config (length (storage s))) s in
  (ground_station_available (transmitter (step demo_config RunTransmitter boot))
   = true <-> (xTickCount boot / 1000) mod 30 = 0)
  /\ map seq_of (storage s) = [0; 1; 2; 3]
  /\ storage s' = []
  /\ delivered s' = delivered s ++ map (pair Transmitter) (storage s)
  /\ transmission_count (transmitter s') = 4
  /\ ground_station_available (transmitter s') = false.
Proof.
  cbv zeta.
  pose proof (transmitter_poll_iteration demo_config []) as Hboot.
  pose proof (transmitter_poll_iteration demo_config
                ([RunCollector quiet] ++ collector_cycle ++ [RunTransmitter]))
    as Hrun.
  cbv zeta in Hboot, Hrun.
  destruct (Hboot eq_refl) as (Hpoll & _).
  destruct (Hpoll eq_refl) as (_ & _ & Hgate).
  destruct (Hrun eq_refl) as (_ & _ & Hburst & _).
  destruct (Hburst eq_refl eq_refl) as (Hq & Hd & Hc & Hg & _).
  split; [exact Hgate|]. split; [vm_compute; reflexivity|].
  split; [exact Hq|]. split; [exact Hd|]. split; [|exact Hg].
  rewrite Hc. vm_compute. reflexivity.
Defined.

(** * One cycle of the collector *)

Lemma collector_generates cfg r s ty prio next :
  generator_at (c_pc (collector s)) = Some (ty, prio, next) ->
  awake (c_sleep (collector s)) = true ->
  exists p s0,
    generated cfg ty prio s s0 p (length (storage s) <? capacity cfg)%nat
    /\ step cfg (RunCollector r) s = goto_collector next s0.
Proof.
  intros Hat Hw. unfold step, vTelemetryCollectorTask. rewrite Hw.
  destruct (c_pc (collector s)); cbn in Hat; inversion Hat; subst.
  - destruct (generate_system_telemetry_generated cfg r s) as [p G]. eauto.
  - destruct (generate_power_telemetry_generated cfg r s) as [p G]. eauto.
  - destruct (generate_temperature_telemetry_generated cfg r s) as [p G]. eauto.
  - destruct (generate_subsystem_telemetry_generated cfg r s) as [p G]. eauto.
Qed.

(** What a generator call of the collector leaves behind, in terms of the
    state before the call. *)
Lemma collector_generates_effect cfg r s ty prio next :
  generator_at (c_pc (collector s)) = Some (ty, prio, next) ->
  awake (c_sleep (collector s)) = true ->
  let s' := step cfg (RunCollector r) s in
  exists p,
    store_log s' = store_log s ++ [(p, (length (storage s) <? capacity cfg)%nat)]
    /\ storage s' = (if (length (storage s) <? capacity cfg)%nat
                     then storage s ++ [p] else storage s)
    /\ type (header p) = ty
    /\ payload_type (payload p) = ty
    /\ priority (header p) = prio
    /\ timestamp (header p) = xTickCount s
    /\ seq_of p = sequence_number (generators s)
    /\ sequence_number (generators s') = u16 (sequence_number (generators s) + 1)
    /\ c_pc (collector s') = next
    /\ awake (c_sleep (collector s')) = true.
Proof.
  intros Hat Hw s'.
  destruct (collector_generates cfg r s Hat Hw) as (p & s0 & G & Hstep).
  exists p. unfold s'. rewrite Hstep. simpl_world.
  unfold seq_of. rewrite (gen_log G), (gen_storage G), (gen_header G),
    (gen_payload G), (gen_sequence G), (gen_collector G).
  simpl_world. repeat split. exact Hw.
Qed.

Lemma others_keep_collector cfg evs :
  collector_free evs = true ->
  forall s,
    let s' := run cfg evs s in
    store_log s' = store_log s
    /\ generators s' = generators s
    /\ c_pc (collector s') = c_pc (collector s)
    /\ (awake (c_sleep (collector s)) = true ->
        awake (c_sleep (collector s')) = true).
Proof.
  induction evs as [|e evs IH]; intros Hfree s; cbn [run].
  - repeat split; auto.
  - cbn [collector_free forallb] in Hfree.
    apply andb_true_iff in Hfree as [He Hfree].
    destruct (IH Hfree (step cfg e s)) as (Hl & Hg & Hpc & Hw).
    cbv zeta. rewrite Hl, Hg, Hpc.
    assert (H : store_log (step cfg e s) = store_log s
                /\ generators (step cfg e s) = generators s
                /\ c_pc (collector (step cfg e s)) = c_pc (collector s)
                /\ (awake (c_sleep (collector s)) = true ->
                    awake (c_sleep (collector (step cfg e s))) = true)).
    { destruct e as [|r| |]; [|discriminate He| |]; unfold step.
      - unfold xTaskIncrementTick. simpl_world. repeat split.
        unfold awake, count_down. intros Hs. apply Z.leb_le in Hs.
        apply Z.leb_le. destruct (0 <? c_sleep (collector s)); lia.
      - unfold vTelemetryProcessorTask, telemetry_retrieve_packet.
        destruct (awake (p_sleep (processor s))); [|repeat split; auto].
        destruct (storage s); simpl_world; repeat split; auto.
      - unfold vTelemetryTransmitterTask, telemetry_retrieve_packet.
        destruct (awake (t_sleep (transmitter s))); [|repeat split; auto].
        destruct (t_pc (transmitter s)); simpl_world;
          [repeat split; auto| |destruct (storage s); repeat split; auto].
        destruct (ground_station_available (transmitter s));
          [destruct (0 <? telemetry_available_packets s)|];
          repeat split; auto. }
    destruct H as (Hl0 & Hg0 & Hpc0 & Hw0).
    rewrite Hl0, Hg0, Hpc0. repeat split. auto.
Qed.

(** C2: one iteration of the collector's loop, from any reachable state in
    which the collector is at the head of its loop body, with arbitrary
    steps of the other tasks and ticks ([i1] .. [i4]) between its own steps.
    The iteration calls the store exactly four times, with packets of types
    System, Power, Temperature, Subsystem in this order; each call is made
    with the packet just stamped, before the next packet takes its sequence
    number (the counter has advanced exactly as many times as the store was
    called); an accepted packet is appended to the storage by the very
    step that built it; the fifth step of the collector only waits for the
    next period and returns to the head of the body. *)
Theorem collector_cycle_stores_four :
  forall cfg evs r1 r2 r3 r4 r5 i1 i2 i3 i4,
    let s := run cfg evs boot in
    let s1 := step cfg (RunCollector r1) s in
    let s2 := step cfg (RunCollector r2) (run cfg i1 s1) in
    let s3 := step cfg (RunCollector r3) (run cfg i2 s2) in
    let s4 := step cfg (RunCollector r4) (run cfg i3 s3) in
    let s5 := step cfg (RunCollector r5) (run cfg i4 s4) in
    let sn := sequence_number (generators s) in
    c_pc (collector s) = C_System ->
    awake (c_sleep (collector s)) = true ->
    collector_free i1 = true -> collector_free i2 = true ->
    collector_free i3 = true -> collector_free i4 = true ->
    exists p1 p2 p3 p4 ok1 ok2 ok3 ok4,
      store_log s1 = store_log s ++ [(p1, ok1)]
      /\ store_log s2 = store_log s ++ [(p1, ok1); (p2, ok2)]
      /\ store_log s3 = store_log s ++ [(p1, ok1); (p2, ok2); (p3, ok3)]
      /\ store_log s4
         = store_log s ++ [(p1, ok1); (p2, ok2); (p3, ok3); (p4, ok4)]
      /\ store_log s5 = store_log s4
      /\ c_pc (collector s5) = C_System
      /\ map (fun p => type (header p)) [p1; p2; p3; p4]
         = [TELEM_SYSTEM_STATUS; TELEM_POWER_DATA; TELEM_TEMPERATURE_DATA;
            TELEM_COMMUNICATION_STATUS]
      /\ map (fun p => payload_type (payload p)) [p1; p2; p3; p4]
         = [TELEM_SYSTEM_STATUS; TELEM_POWER_DATA; TELEM_TEMPERATURE_DATA;
            TELEM_COMMUNICATION_STATUS]
      /\ map seq_of [p1; p2; p3; p4]
         = [sn; sequence_number (generators s1);
            sequence_number (generators s2); sequence_number (generators s3)]
      /\ map (fun w => sequence_number (generators w)) [s1; s2; s3; s4]
         = [u16 (sn + 1); u16 (sn + 2); u16 (sn + 3); u16 (sn + 4)]
      /\ storage s1 = (if ok1 then storage s ++ [p1] else storage s)
      /\ storage s2 = (if ok2 then storage (run cfg i1 s1) ++ [p2]
                       else storage (run cfg i1 s1))
      /\ storage s3 = (if ok3 then storage (run cfg i2 s2) ++ [p3]
                       else storage (run cfg i2 s2))
      /\ storage s4 = (if ok4 then storage (run cfg i3 s3) ++ [p4]
                       else storage (run cfg i3 s3)).
Proof.
  intros cfg evs r1 r2 r3 r4 r5 i1 i2 i3 i4 s s1 s2 s3 s4 s5 sn
         Hpc Hw F1 F2 F3 F4.
  assert (At1 : generator_at (c_pc (collector s))
                = Some (TELEM_SYSTEM_STATUS, 1, C_Power)) by now rewrite Hpc.
  destruct (collector_generates_effect cfg r1 s At1 Hw)
    as (p1 & L1 & Q1 & T1 & P1 & _ & _ & N1 & G1 & Pc1 & W1).
  fold s1 in L1, Q1, G1, Pc1, W1.
  destruct (others_keep_collector cfg i1 F1 s1) as (L1' & G1' & Pc1' & W1').
  assert (At2 : generator_at (c_pc (collector (run cfg i1 s1)))
                = Some (TELEM_POWER_DATA, 2, C_Temperature))
    by now rewrite Pc1', Pc1.
  destruct (collector_generates_effect cfg r2 _ At2 (W1' W1))
    as (p2 & L2 & Q2 & T2 & P2 & _ & _ & N2 & G2 & Pc2 & W2).
  fold s2 in L2, Q2, G2, Pc2, W2.
  destruct (others_keep_collector cfg i2 F2 s2) as (L2' & G2' & Pc2' & W2').
  assert (At3 : generator_at (c_pc (collector (run cfg i2 s2)))
                = Some (TELEM_TEMPERATURE_DATA, 1, C_Subsystem))
    by now rewrite Pc2', Pc2.
  destruct (collector_generates_effect cfg r3 _ At3 (W2' W2))
    as (p3 & L3 & Q3 & T3 & P3 & _ & _ & N3 & G3 & Pc3 & W3).
  fold s3 in L3, Q3, G3, Pc3, W3.
  destruct (others_keep_collector cfg i3 F3 s3) as (L3' & G3' & Pc3' & W3').
  assert (At4 : generator_at (c_pc (collector (run cfg i3 s3)))
                = Some (TELEM_COMMUNICATION_STATUS, 1, C_Delay))
    by now rewrite Pc3', Pc3.
  destruct (collector_generates_effect cfg r4 _ At4 (W3' W3))
    as (p4 & L4 & Q4 & T4 & P4 & _ & _ & N4 & G4 & Pc4 & W4).
  fold s4 in L4, Q4, G4, Pc4, W4.
  destruct (others_keep_collector cfg i4 F4 s4) as (L4' & G4' & Pc4' & W4').
  rewrite G1' in G2, N2. rewrite G2' in G3, N3. rewrite G3' in G4, N4.
  rewrite L1' in L2. rewrite L2' in L3. rewrite L3' in L4.
  exists p1, p2, p3, p4.
  exists (length (storage s) <? capacity cfg)%nat,
         (length (storage (run cfg i1 s1)) <? capacity cfg)%nat,
         (length (storage (run cfg i2 s2)) <? capacity cfg)%nat,
         (length (storage (run cfg i3 s3)) <? capacity cfg)%nat.
  split; [exact L1|].
  split; [rewrite L2, L1, <- app_assoc; reflexivity|].
  split; [rewrite L3, L2, L1, <- !app_assoc; reflexivity|].
  split; [rewrite L4, L3, L2, L1, <- !app_assoc; reflexivity|].
  split; [|split].
  - unfold s5, step, vTelemetryCollectorTask.
    rewrite (W4' W4), Pc4', Pc4.
    destruct (vTaskDelayUntil _ _ _) as [last wait]. simpl_world. exact L4'.
  - unfold s5, step, vTelemetryCollectorTask.
    rewrite (W4' W4), Pc4', Pc4.
    destruct (vTaskDelayUntil _ _ _) as [last wait]. reflexivity.
  - assert (E2 : sequence_number (generators s2) = u16 (sn + 2)).
    { rewrite G2, G1. fold sn. rewrite u16_succ. f_equal. lia. }
    assert (E3 : sequence_number (generators s3) = u16 (sn + 3)).
    { rewrite G3, E2, u16_succ. f_equal. lia. }
    assert (E4 : sequence_number (generators s4) = u16 (sn + 4)).
    { rewrite G4, E3, u16_succ. f_equal. lia. }
    cbn [map]. rewrite T1, T2, T3, T4, P1, P2, P3, P4, N1, N2, N3, N4.
    rewrite E4, E3, E2, G1. fold sn.
    repeat split; assumption.
Qed.

(** A run C2 applies to: the collector's first cycle after its prologue,
    in a world where the processor and the tick run in between. *)
Lemma collector_cycle_stores_four_witness :
  let s := run demo_config [RunCollector quiet] boot in
  let s1 := step demo_config (RunCollector quiet) s in
  let s2 := step demo_config (RunCollector quiet)
              (run demo_config [RunProcessor; Tick] s1) in
  let s3 := step demo_config (RunCollector quiet)
              (run demo_config [Tick] s2) in
  let s4 := step demo_config (RunCollector quiet) (run demo_config [] s3) in
  c_pc (collector s) = C_System
  /\ awake (c_sleep (collector s)) = true
  /\ map (fun x => type (header (fst x))) (store_log s4)
     = [TELEM_SYSTEM_STATUS; TELEM_POWER_DATA; TELEM_TEMPERATURE_DATA;
        TELEM_COMMUNICATION_STATUS].
Proof.
  cbv zeta.
  assert (Hpc : c_pc (collector (run demo_config [RunCollector quiet] boot))
                = C_System) by (vm_compute; reflexivity).
  assert (Hw : awake (c_sleep (collector
                 (run demo_config [RunCollector quiet] boot))) = true)
    by (vm_compute; reflexivity).
  assert (Hlog : store_log (run demo_config [RunCollector quiet] boot) = [])
    by (vm_compute; reflexivity).
  split; [exact Hpc|]. split; [exact Hw|].
  destruct (collector_cycle_stores_four demo_config [RunCollector quiet]
              quiet quiet quiet quiet quiet [RunProcessor; Tick] [Tick] [] []
              Hpc Hw eq_refl eq_refl eq_refl eq_refl)
    as (p1 & p2 & p3 & p4 & ok1 & ok2 & ok3 & ok4
        & _ & _ & _ & L4 & _ & _ & T & _).
  rewrite L4, Hlog. exact T.
Defined.

(** * The generators *)

(** C6: every generator stamps its packet with its own type, with the tick
    count read at the call, and with a fixed priority: 1 for System,
    Temperature and Subsystem packets, 2 for Power packets. (The sequence
    field is the value of the shared counter before its increment.) *)
Theorem generator_headers :
  forall cfg r s,
    (exists p ok,
        store_log (generate_system_telemetry cfg r s) = store_log s ++ [(p, ok)]
        /\ header p = {| type := TELEM_SYSTEM_STATUS;
                         timestamp := xTaskGetTickCount s;
                         sequence := sequence_number (generators s);
                         priority := 1 |})
    /\ (exists p ok,
           store_log (generate_power_telemetry cfg r s)
           = store_log s ++ [(p, ok)]
           /\ header p = {| type := TELEM_POWER_DATA;
                            timestamp := xTaskGetTickCount s;
                            sequence := sequence_number (generators s);
                            priority := 2 |})
    /\ (exists p ok,
           store_log (generate_temperature_telemetry cfg r s)
           = store_log s ++ [(p, ok)]
           /\ header p = {| type := TELEM_TEMPERATURE_DATA;
                            timestamp := xTaskGetTickCount s;
                            sequence := sequence_number (generators s);
                            priority := 1 |})
    /\ (exists p ok,
           store_log (generate_subsystem_telemetry cfg r s)
           = store_log s ++ [(p, ok)]
           /\ header p = {| type := TELEM_COMMUNICATION_STATUS;
                            timestamp := xTaskGetTickCount s;
                            sequence := sequence_number (generators s);
                            priority := 1 |}).
Proof.
  intros cfg r s.
  destruct (generate_system_telemetry_generated cfg r s) as [p1 G1].
  destruct (generate_power_telemetry_generated cfg r s) as [p2 G2].
  destruct (generate_temperature_telemetry_generated cfg r s) as [p3 G3].
  destruct (generate_subsystem_telemetry_generated cfg r s) as [p4 G4].
  repeat split.
  - exists p1; eexists; split; [apply (gen_log G1)|apply (gen_header G1)].
  - exists p2; eexists; split; [apply (gen_log G2)|apply (gen_header G2)].
  - exists p3; eexists; split; [apply (gen_log G3)|apply (gen_header G3)].
  - exists p4; eexists; split; [apply (gen_log G4)|apply (gen_header G4)].
Qed.

(** C7 as stated fails: a generator returns nothing and does enqueue. Called
    on the freshly booted program with room in the storage, the System
    generator leaves one packet in the storage and one store call in the
    history. *)
Lemma generator_enqueues_counterexample :
  let s' := generate_system_telemetry demo_config quiet boot in
  storage boot = []
  /\ length (storage s') = 1%nat
  /\ length (store_log s') = 1%nat
  /\ storage s' <> storage boot.
Proof.
  cbv zeta. split; [reflexivity|].
  assert (H : length (storage (generate_system_telemetry demo_config quiet boot))
              = 1%nat) by (vm_compute; reflexivity).
  split; [exact H|]. split; [vm_compute; reflexivity|].
  intros Heq. rewrite Heq in H. discriminate H.
Qed.

(** C7 (as amended): every generator function itself hands the packet it
    built, fully populated (the structure filled in is the one its type
    selects), to the store, exactly once, as its last action; when the
    storage has room the packet is in the storage when the generator
    returns. The collector does not store anything itself: each step of its
    loop body is the call of one generator. *)
Theorem generators_store_their_packet :
  forall cfg r s,
    let room := (length (storage s) <? capacity cfg)%nat in
    let stores (s' : world) (ty : telemetry_type_t) :=
      exists p,
        store_log s' = store_log s ++ [(p, room)]
        /\ storage s' = (if room then storage s ++ [p] else storage s)
        /\ type (header p) = ty
        /\ payload_type (payload p) = ty in
    stores (generate_system_telemetry cfg r s) TELEM_SYSTEM_STATUS
    /\ stores (generate_power_telemetry cfg r s) TELEM_POWER_DATA
    /\ stores (generate_temperature_telemetry cfg r s) TELEM_TEMPERATURE_DATA
    /\ stores (generate_subsystem_telemetry cfg r s) TELEM_COMMUNICATION_STATUS
    /\ (awake (c_sleep (collector s)) = true ->
        (c_pc (collector s) = C_System ->
         vTelemetryCollectorTask cfg r s
         = goto_collector C_Power (generate_system_telemetry cfg r s))
        /\ (c_pc (collector s) = C_Power ->
            vTelemetryCollectorTask cfg r s
            = goto_collector C_Temperature (generate_power_telemetry cfg r s))
        /\ (c_pc (collector s) = C_Temperature ->
            vTelemetryCollectorTask cfg r s
            = goto_collector C_Subsystem
                (generate_temperature_telemetry cfg r s))
        /\ (c_pc (collector s) = C_Subsystem ->
            vTelemetryCollectorTask cfg r s
            = goto_collector C_Delay (generate_subsystem_telemetry cfg r s))).
Proof.
  intros cfg r s room stores.
  destruct (generate_system_telemetry_generated cfg r s) as [p1 G1].
  destruct (generate_power_telemetry_generated cfg r s) as [p2 G2].
  destruct (generate_temperature_telemetry_generated cfg r s) as [p3 G3].
  destruct (generate_subsystem_telemetry_generated cfg r s) as [p4 G4].
  unfold stores, room.
  split; [exists p1|split; [exists p2|split; [exists p3|split; [exists p4|]]]].
  - rewrite (gen_log G1), (gen_storage G1), (gen_header G1), (gen_payload G1).
    repeat split.
  - rewrite (gen_log G2), (gen_storage G2), (gen_header G2), (gen_payload G2).
    repeat split.
  - rewrite (gen_log G3), (gen_storage G3), (gen_header G3), (gen_payload G3).
    repeat split.
  - rewrite (gen_log G4), (gen_storage G4), (gen_header G4), (gen_payload G4).
    repeat split.
  - intros Hw. unfold vTelemetryCollectorTask. rewrite Hw.
    repeat split; intros ->; reflexivity.
Qed.

(** A state the amended C7 applies to: the collector after its prologue,
    about to call the System generator. *)
Lemma generators_store_their_packet_witness :
  let s := run demo_config [RunCollector quiet] boot in
  awake (c_sleep (collector s)) = true
  /\ c_pc (collector s) = C_System
  /\ vTelemetryCollectorTask demo_config quiet s
     = goto_collector C_Power (generate_system_telemetry demo_config quiet s).
Proof.
  cbv zeta.
  assert (Hw : awake (c_sleep (collector
                 (run demo_config [RunCollector quiet] boot))) = true)
    by (vm_compute; reflexivity).
  assert (Hpc : c_pc (collector (run demo_config [RunCollector quiet] boot))
                = C_System) by (vm_compute; reflexivity).
  split; [exact Hw|]. split; [exact Hpc|].
  destruct (generators_store_their_packet demo_config quiet
              (run demo_config [RunCollector quiet] boot))
    as (_ & _ & _ & _ & Hcollector).
  destruct (Hcollector Hw) as (Hsys & _).
  exact (Hsys Hpc).
Defined.

(** C9: the Subsystem packet's payload uptime is the uptime counter minus
    100 computed on 32 unsigned bits, with no floor: while the counter is
    below 100 the stored value is the counter minus 100 plus 2^32, a value
    of at least 4294967196, not zero. *)
Theorem payload_uptime_wraps :
  forall cfg r s,
    0 <= system_uptime (generators s) < 100 ->
    exists p ok body,
      store_log (generate_subsystem_telemetry cfg r s)
      = store_log s ++ [(p, ok)]
      /\ payload p = subsystems body
      /\ SubsystemTelem.comms_uptime body = system_uptime (generators s)
      /\ SubsystemTelem.payload_uptime body
         = system_uptime (generators s) - 100 + 4294967296
      /\ 4294967196 <= SubsystemTelem.payload_uptime body.
Proof.
  intros cfg r s Hup.
  unfold generate_subsystem_telemetry, telemetry_store_packet. simpl_world.
  assert (Hwrap : u32 (system_uptime (generators s) - 100)
                  = system_uptime (generators s) - 100 + 4294967296).
  { unfold u32. symmetry.
    apply Z.mod_unique with (q := -1); lia. }
  destruct (length (storage s) <? capacity cfg)%nat; simpl_world;
    eexists; eexists; eexists;
    (split; [reflexivity|]); (split; [reflexivity|]);
    cbn [SubsystemTelem.comms_uptime SubsystemTelem.payload_uptime];
    rewrite Hwrap; repeat split; lia.
Qed.

(** A state C9 applies to: the first collector cycle, where the uptime
    counter is 1 when the Subsystem generator runs; the payload uptime it
    stores is 4294967197. *)
Lemma payload_uptime_wraps_witness :
  let s := run demo_config (repeat (RunCollector quiet) 4) boot in
  system_uptime (generators s) = 1
  /\ exists p ok body,
       store_log (generate_subsystem_telemetry demo_config quiet s)
       = store_log s ++ [(p, ok)]
       /\ payload p = subsystems body
       /\ SubsystemTelem.payload_uptime body = 4294967197.
Proof.
  cbv zeta.
  assert (Hup : system_uptime (generators
                  (run demo_config (repeat (RunCollector quiet) 4) boot)) = 1)
    by (vm_compute; reflexivity).
  split; [exact Hup|].
  destruct (payload_uptime_wraps demo_config quiet
              (run demo_config (repeat (RunCollector quiet) 4) boot))
    as (p & ok & body & Hlog & Hpay & _ & Hwrap & _).
  { rewrite Hup. lia. }
  exists p, ok, body. split; [exact Hlog|]. split; [exact Hpay|].
  rewrite Hwrap, Hup. reflexivity.
Defined.

(** * Virtual sensors *)

Lemma forallb_below (f : Z -> bool) n :
  forallb f (below n) = true ->
  forall k, 0 <= k < Z.of_nat n -> f k = true.
Proof.
  intros H k Hk. rewrite forallb_forall in H. apply H.
  unfold below. apply in_map_iff. exists (Z.to_nat k). split; [lia|].
  apply in_seq. lia.
Qed.

Lemma in_range_spec lo hi x :
  in_range lo hi x = true ->
  F32.is_finite x = true /\ (lo <= F32.to_Q x)%Q /\ (F32.to_Q x <= hi)%Q.
Proof.
  unfold in_range. intros H.
  apply andb_true_iff in H as [H Hhi]. apply andb_true_iff in H as [Hfin Hlo].
  apply Qle_bool_iff in Hlo, Hhi. auto.
Qed.

(** All 200 values of the voltage source and all 150 values of the
    temperature source, computed in binary32. *)
Lemma voltage_values_in_range :
  forallb (fun k => in_range (31 # 10) (35 # 10)
                      (F32.add (F32.lit 33 10)
                               (F32.div (F32.of_Z k) (F32.of_Z 1000))))
          (below 200) = true.
Proof. vm_compute. reflexivity. Qed.

Lemma temperature_values_in_range :
  forallb (fun k => in_range (10 # 1) (40 # 1)
                      (F32.add (F32.of_Z 25)
                               (F32.div (F32.of_Z k) (F32.of_Z 10))))
          (below 150) = true.
Proof. vm_compute. reflexivity. Qed.

Example read_virtual_voltage_largest :
  read_virtual_voltage 199 = S754_finite false 14675870 (-22).
Proof. vm_compute. reflexivity. Qed.

Example read_virtual_temperature_largest :
  F32.to_int (read_virtual_temperature 149) = 39.
Proof. vm_compute. reflexivity. Qed.

(** C8: whatever [esp_random] returns, the virtual voltage is a finite float
    within [3.1, 3.5] and the virtual temperature a finite float within
    [10, 40]. With WOKWI defined the Power and Temperature generators fill
    their readings from these sources; without it they store the fixed
    values 3.3f and 25, and 35, 28, 25, 22, -15. *)
Theorem virtual_sensor_ranges :
  forall rnd,
    (F32.is_finite (read_virtual_voltage rnd) = true
     /\ (31 # 10 <= F32.to_Q (read_virtual_voltage rnd))%Q
     /\ (F32.to_Q (read_virtual_voltage rnd) <= 35 # 10)%Q)
    /\ (F32.is_finite (read_virtual_temperature rnd) = true
        /\ (10 # 1 <= F32.to_Q (read_virtual_temperature rnd))%Q
        /\ (F32.to_Q (read_virtual_temperature rnd) <= 40 # 1)%Q)
    /\ forall cfg r s,
        (exists p ok body,
            store_log (generate_power_telemetry cfg r s)
            = store_log s ++ [(p, ok)]
            /\ payload p = power body
            /\ if WOKWI cfg
               then PowerTelem.battery_voltage body
                    = read_virtual_voltage (esp_random r 0%nat)
                    /\ PowerTelem.battery_temperature body
                       = F32.to_int
                           (read_virtual_temperature (esp_random r 1%nat))
               else PowerTelem.battery_voltage body = F32.lit 33 10
                    /\ PowerTelem.battery_temperature body = 25)
        /\ (exists p ok body,
               store_log (generate_temperature_telemetry cfg r s)
               = store_log s ++ [(p, ok)]
               /\ payload p = temperature body
               /\ if WOKWI cfg
                  then TemperatureTelem.obc_temperature body
                       = F32.to_int
                           (read_virtual_temperature (esp_random r 0%nat))
                       /\ TemperatureTelem.battery_temperature body
                          = F32.to_int
                              (read_virtual_temperature (esp_random r 3%nat))
                  else body
                       = {| TemperatureTelem.obc_temperature := 35;
                            TemperatureTelem.comms_temperature := 28;
                            TemperatureTelem.payload_temperature := 25;
                            TemperatureTelem.battery_temperature := 22;
                            TemperatureTelem.external_temperature := -15 |}).
Proof.
  intros rnd. split; [|split].
  - apply in_range_spec. unfold read_virtual_voltage.
    apply (forallb_below _ 200 voltage_values_in_range).
    change (Z.of_nat 200) with 200. apply Z.mod_pos_bound. lia.
  - apply in_range_spec. unfold read_virtual_temperature.
    apply (forallb_below _ 150 temperature_values_in_range).
    change (Z.of_nat 150) with 150. apply Z.mod_pos_bound. lia.
  - intros cfg r s. split.
    + unfold generate_power_telemetry, telemetry_store_packet. simpl_world.
      destruct (length (storage s) <? capacity cfg)%nat; simpl_world;
        eexists; eexists; eexists;
        (split; [reflexivity|]); (split; [reflexivity|]);
        cbn [PowerTelem.battery_voltage PowerTelem.battery_temperature];
        destruct (WOKWI cfg); split; reflexivity.
    + unfold generate_temperature_telemetry, telemetry_store_packet.
      simpl_world.
      destruct (length (storage s) <? capacity cfg)%nat; simpl_world;
        eexists; eexists; eexists;
        (split; [reflexivity|]); (split; [reflexivity|]);
        destruct (WOKWI cfg); try split; reflexivity.
Qed.

(** * More on the tasks *)

(** ** Blocked tasks *)

Lemma collector_keeps_consumers cfg r s :
  processor (step cfg (RunCollector r) s) = processor s
  /\ transmitter (step cfg (RunCollector r) s) = transmitter s
  /\ delivered (step cfg (RunCollector r) s) = delivered s.
Proof.
  unfold step, vTelemetryCollectorTask.
  destruct (awake (c_sleep (collector s))); [|repeat split].
  destruct (c_pc (collector s)); simpl_world.
  - repeat split.
  - destruct (generate_system_telemetry_generated cfg r s) as [p G].
    rewrite (gen_processor G), (gen_transmitter G), (gen_delivered G).
    repeat split.
  - destruct (generate_power_telemetry_generated cfg r s) as [p G].
    rewrite (gen_processor G), (gen_transmitter G), (gen_delivered G).
    repeat split.
  - destruct (generate_temperature_telemetry_generated cfg r s) as [p G].
    rewrite (gen_processor G), (gen_transmitter G), (gen_delivered G).
    repeat split.
  - destruct (generate_subsystem_telemetry_generated cfg r s) as [p G].
    rewrite (gen_processor G), (gen_transmitter G), (gen_delivered G).
    repeat split.
  - destruct (vTaskDelayUntil _ _ _). repeat split.
Qed.

Lemma awake_false sleep : 0 < sleep -> awake sleep = false.
Proof. intros H. unfold awake. apply Z.leb_gt. exact H. Qed.

Lemma count_down_pos sleep : 0 < sleep -> count_down sleep = sleep - 1.
Proof.
  intros H. unfold count_down.
  destruct (0 <? sleep) eqn:E; [reflexivity|]. apply Z.ltb_ge in E. lia.
Qed.

(** What the transmitter may add to the history is none of the processor's
    business, and conversely. *)
Lemma transmitter_keeps_processor cfg s :
  processor (step cfg RunTransmitter s) = processor s
  /\ retrieved_by Processor (step cfg RunTransmitter s)
     = retrieved_by Processor s.
Proof.
  unfold step, vTelemetryTransmitterTask, telemetry_retrieve_packet,
    retrieved_by.
  destruct (awake (t_sleep (transmitter s))); [|split; reflexivity].
  destruct (t_pc (transmitter s)); simpl_world.
  - split; reflexivity.
  - destruct (ground_station_available (transmitter s));
      [destruct (0 <? telemetry_available_packets s)|]; split; reflexivity.
  - destruct (storage s); simpl_world; [split; reflexivity|].
    rewrite filter_app. cbn [filter is_consumer fst].
    rewrite app_nil_r. split; reflexivity.
Qed.

Lemma processor_keeps_transmitter cfg s :
  transmitter (step cfg RunProcessor s) = transmitter s
  /\ retrieved_by Transmitter (step cfg RunProcessor s)
     = retrieved_by Transmitter s.
Proof.
  unfold step, vTelemetryProcessorTask, telemetry_retrieve_packet,
    retrieved_by.
  destruct (awake (p_sleep (processor s))); [|split; reflexivity].
  destruct (storage s); simpl_world; [split; reflexivity|].
  rewrite filter_app. cbn [filter is_consumer fst].
  rewrite app_nil_r. split; reflexivity.
Qed.

Lemma processor_blocked cfg evs :
  forall s,
    Z.of_nat (ticks evs) < p_sleep (processor s) ->
    let s' := run cfg evs s in
    retrieved_by Processor s' = retrieved_by Processor s
    /\ processed_count (processor s') = processed_count (processor s)
    /\ p_sleep (processor s') = p_sleep (processor s) - Z.of_nat (ticks evs).
Proof.
  induction evs as [|e evs IH]; intros s Hlt; cbn [run].
  - cbn [ticks filter length Z.of_nat]. repeat split. lia.
  - assert (Hstep :
      retrieved_by Processor (step cfg e s) = retrieved_by Processor s
      /\ processed_count (processor (step cfg e s))
         = processed_count (processor s)
      /\ p_sleep (processor (step cfg e s))
         = p_sleep (processor s)
           - Z.of_nat (ticks [e])).
    { destruct e as [|r| |]; cbn [ticks filter length Z.of_nat].
      - unfold step, xTaskIncrementTick, retrieved_by. simpl_world.
        rewrite count_down_pos; [repeat split|].
        unfold ticks in Hlt. cbn [filter length] in Hlt. lia.
      - destruct (collector_keeps_consumers cfg r s) as (Hp & _ & Hd).
        unfold retrieved_by. rewrite Hp, Hd. repeat split. lia.
      - unfold step, vTelemetryProcessorTask.
        rewrite awake_false; [repeat split; lia|].
        unfold ticks in Hlt. cbn [filter] in Hlt. lia.
      - destruct (transmitter_keeps_processor cfg s) as (Hp & Hr).
        rewrite Hp, Hr. repeat split. lia. }
    destruct Hstep as (Hr & Hc & Hs).
    assert (Hticks : ticks (e :: evs) = (ticks [e] + ticks evs)%nat).
    { unfold ticks. cbn [filter]. destruct e; cbn [length]; lia. }
    rewrite Hticks in Hlt |- *.
    destruct (IH (step cfg e s)) as (Hr' & Hc' & Hs'); [lia|].
    cbv zeta. rewrite Hr', Hc', Hs', Hr, Hc, Hs. repeat split. lia.
Qed.

Lemma transmitter_blocked cfg evs :
  forall s,
    Z.of_nat (ticks evs) < t_sleep (transmitter s) ->
    let s' := run cfg evs s in
    retrieved_by Transmitter s' = retrieved_by Transmitter s
    /\ t_pc (transmitter s') = t_pc (transmitter s)
    /\ ground_station_available (transmitter s')
       = ground_station_available (transmitter s)
    /\ transmission_count (transmitter s') = transmission_count (transmitter s)
    /\ t_sleep (transmitter s') = t_sleep (transmitter s) - Z.of_nat (ticks evs).
Proof.
  induction evs as [|e evs IH]; intros s Hlt; cbn [run].
  - cbn [ticks filter length Z.of_nat]. repeat split. lia.
  - assert (Hstep :
      retrieved_by Transmitter (step cfg e s) = retrieved_by Transmitter s
      /\ t_pc (transmitter (step cfg e s)) = t_pc (transmitter s)
      /\ ground_station_available (transmitter (step cfg e s))
         = ground_station_available (transmitter s)
      /\ transmission_count (transmitter (step cfg e s))
         = transmission_count (transmitter s)
      /\ t_sleep (transmitter (step cfg e s))
         = t_sleep (transmitter s) - Z.of_nat (ticks [e])).
    { destruct e as [|r| |]; cbn [ticks filter length Z.of_nat].
      - unfold step, xTaskIncrementTick, retrieved_by. simpl_world.
        rewrite count_down_pos; [repeat split|].
        unfold ticks in Hlt. cbn [filter length] in Hlt. lia.
      - destruct (collector_keeps_consumers cfg r s) as (_ & Ht & Hd).
        unfold retrieved_by. rewrite Ht, Hd. repeat split. lia.
      - destruct (processor_keeps_transmitter cfg s) as (Ht & Hr).
        rewrite Ht, Hr. repeat split. lia.
      - unfold step, vTelemetryTransmitterTask.
        rewrite awake_false; [repeat split; lia|].
        unfold ticks in Hlt. cbn [filter] in Hlt. lia. }
    destruct Hstep as (Hr & Hpc & Hg & Hc & Hs).
    assert (Hticks : ticks (e :: evs) = (ticks [e] + ticks evs)%nat).
    { unfold ticks. cbn [filter]. destruct e; cbn [length]; lia. }
    rewrite Hticks in Hlt |- *.
    destruct (IH (step cfg e s)) as (Hr' & Hpc' & Hg' & Hc' & Hs'); [lia|].
    cbv zeta. rewrite Hr', Hpc', Hg', Hc', Hs', Hr, Hpc, Hg, Hc, Hs.
    repeat split. lia.
Qed.

(** ** The processor *)

Lemma processor_drains cfg :
  forall q s,
    storage s = q ->
    awake (p_sleep (processor s)) = true ->
    let s' := run cfg (repeat RunProcessor (length q)) s in
    storage s' = []
    /\ delivered s' = delivered s ++ map (pair Processor) q
    /\ u32 (processed_count (processor s'))
       = u32 (processed_count (processor s) + Z.of_nat (length q))
    /\ p_sleep (processor s') = p_sleep (processor s).
Proof.
  induction q as [|p q IH]; intros s Hq Hw.
  - cbn [length repeat run map]. rewrite app_nil_r, Z.add_0_r. auto.
  - cbn [length repeat run].
    set (s1 := step cfg RunProcessor s).
    assert (H1 : storage s1 = q
                 /\ delivered s1 = delivered s ++ [(Processor, p)]
                 /\ processed_count (processor s1)
                    = u32 (processed_count (processor s) + 1)
                 /\ p_sleep (processor s1) = p_sleep (processor s)).
    { unfold s1, step, vTelemetryProcessorTask, telemetry_retrieve_packet.
      rewrite Hw, Hq. simpl_world. repeat split. }
    destruct H1 as (Hq1 & Hd1 & Hc1 & Hs1).
    assert (Hw1 : awake (p_sleep (processor s1)) = true) by now rewrite Hs1.
    destruct (IH s1 Hq1 Hw1) as (Hq2 & Hd2 & Hc2 & Hs2).
    cbv zeta. rewrite Hq2, Hd2, Hc2, Hs2, Hd1, Hc1, Hs1.
    cbn [map]. rewrite <- app_assoc, u32_add_l. repeat split.
    f_equal. lia.
Qed.

(** X1: the processor, once it runs with [n] packets in the storage and
    nobody else touching it, takes all [n] in FIFO order in [n] consecutive
    iterations without ever delaying, counts them, and only the following
    iteration, which finds the storage empty, takes nothing and delays it
    for 1000 ms. *)
Theorem processor_drains_queue :
  forall cfg evs,
    let s := run cfg evs boot in
    let s' := run cfg (repeat RunProcessor (length (storage s))) s in
    let s'' := step cfg RunProcessor s' in
    awake (p_sleep (processor s)) = true ->
    storage s' = []
    /\ delivered s' = delivered s ++ map (pair Processor) (storage s)
    /\ processed_count (processor s')
       = u32 (processed_count (processor s)
              + Z.of_nat (length (storage s)))
    /\ awake (p_sleep (processor s')) = true
    /\ delivered s'' = delivered s'
    /\ processed_count (processor s'') = processed_count (processor s')
    /\ p_sleep (processor s'') = pdMS_TO_TICKS cfg 1000.
Proof.
  intros cfg evs s s' s'' Hw.
  pose proof (reachable_run cfg evs) as Hs. fold s in Hs.
  assert (Hs' : reachable cfg s') by now apply run_reachable.
  destruct (inv_counts Hs') as [Hrange _].
  destruct (@processor_drains cfg _ s eq_refl Hw) as (Hq & Hd & Hc & Hsl).
  fold s' in Hq, Hd, Hc, Hsl.
  assert (Hw' : awake (p_sleep (processor s')) = true) by now rewrite Hsl.
  split; [exact Hq|]. split; [exact Hd|].
  split; [rewrite Hrange, <- Hc, Hrange, u32_idem; reflexivity|].
  split; [exact Hw'|].
  unfold s'', step, vTelemetryProcessorTask, telemetry_retrieve_packet.
  rewrite Hw', Hq. simpl_world. repeat split.
Qed.

(** A run X1 applies to: two collector cycles five seconds apart into a
    storage of eight, then the processor takes the eight packets. *)
Lemma processor_drains_queue_witness :
  let cfg := {| WOKWI := false; configTICK_RATE_HZ := 1000; capacity := 8 |} in
  let evs := [RunCollector quiet] ++ collector_cycle ++ pause 5000
             ++ collector_cycle in
  let s := run cfg evs boot in
  let s' := run cfg (repeat RunProcessor (length (storage s))) s in
  length (storage s) = 8%nat
  /\ storage s' = []
  /\ processed_count (processor s') = 8.
Proof.
  cbv zeta.
  pose proof (processor_drains_queue
                {| WOKWI := false; configTICK_RATE_HZ := 1000; capacity := 8 |}
                ([RunCollector quiet] ++ collector_cycle ++ pause 5000
                 ++ collector_cycle)) as H.
  cbv zeta in H.
  destruct H as (Hq & _ & Hc & _); [vm_compute; reflexivity|].
  split; [vm_compute; reflexivity|]. split; [exact Hq|].
  rewrite Hc. vm_compute. reflexivity.
Defined.

(** X2: after an iteration that found the storage empty, the processor
    retrieves nothing until 1000 ms of ticks have passed, whatever the other
    tasks do meanwhile (the collector may store packets in that time). *)
Theorem processor_idle_wait :
  forall cfg s evs,
    let s1 := step cfg RunProcessor s in
    awake (p_sleep (processor s)) = true ->
    storage s = [] ->
    Z.of_nat (ticks evs) < pdMS_TO_TICKS cfg 1000 ->
    retrieved_by Processor (run cfg evs s1) = retrieved_by Processor s
    /\ processed_count (processor (run cfg evs s1))
       = processed_count (processor s).
Proof.
  intros cfg s evs s1 Hw Hq Hlt.
  assert (H1 : p_sleep (processor s1) = pdMS_TO_TICKS cfg 1000
               /\ retrieved_by Processor s1 = retrieved_by Processor s
               /\ processed_count (processor s1)
                  = processed_count (processor s)).
  { unfold s1, step, vTelemetryProcessorTask, telemetry_retrieve_packet,
      retrieved_by.
    rewrite Hw, Hq. simpl_world. repeat split. }
  destruct H1 as (Hs1 & Hr1 & Hc1).
  destruct (processor_blocked cfg evs s1) as (Hr & Hc & _);
    [rewrite Hs1; exact Hlt|].
  rewrite Hr, Hc, Hr1, Hc1. split; reflexivity.
Qed.

(** A run X2 applies to: the processor finds the storage empty at boot; the
    collector then stores four packets and 999 ticks pass; the processor,
    scheduled again, still has nothing. *)
Lemma processor_idle_wait_witness :
  let evs := [RunCollector quiet] ++ collector_cycle ++ pause 999
             ++ [RunProcessor] in
  let s' := run demo_config evs (step demo_config RunProcessor boot) in
  length (storage s') = 4%nat
  /\ retrieved_by Processor s' = [].
Proof.
  cbv zeta. split; [vm_compute; reflexivity|].
  destruct (processor_idle_wait demo_config boot
              ([RunCollector quiet] ++ collector_cycle ++ pause 999
               ++ [RunProcessor])) as (Hr & _).
  - reflexivity.
  - reflexivity.
  - vm_compute. reflexivity.
  - rewrite Hr. reflexivity.
Defined.

(** ** The transmitter's delays *)

(** X3: the delays of the transmitter hold it back. After a packet of a
    burst it neither takes another packet nor leaves the burst until 50 ms
    of ticks have passed; after the end of a poll iteration it stays at the
    head of its loop with the gate closed, taking nothing, until 2000 ms of
    ticks have passed. This holds whatever the other tasks do meanwhile. *)
Theorem transmitter_delays_hold :
  forall cfg s evs,
    let s1 := step cfg RunTransmitter s in
    let s' := run cfg evs s1 in
    awake (t_sleep (transmitter s)) = true ->
    (t_pc (transmitter s) = T_Burst -> storage s <> [] ->
     Z.of_nat (ticks evs) < pdMS_TO_TICKS cfg 50 ->
     retrieved_by Transmitter s' = retrieved_by Transmitter s1
     /\ t_pc (transmitter s') = T_Burst
     /\ transmission_count (transmitter s')
        = transmission_count (transmitter s1))
    /\ (t_pc (transmitter s) <> T_Poll ->
        t_pc (transmitter s1) = T_Poll ->
        Z.of_nat (ticks evs) < pdMS_TO_TICKS cfg 2000 ->
        retrieved_by Transmitter s' = retrieved_by Transmitter s1
        /\ t_pc (transmitter s') = T_Poll
        /\ ground_station_available (transmitter s') = false
        /\ transmission_count (transmitter s')
           = transmission_count (transmitter s1)).
Proof.
  intros cfg s evs s1 s' Hw. split.
  - intros Hpc Hq Hlt.
    assert (H1 : t_sleep (transmitter s1) = pdMS_TO_TICKS cfg 50
                 /\ t_pc (transmitter s1) = T_Burst).
    { unfold s1, step, vTelemetryTransmitterTask, telemetry_retrieve_packet.
      rewrite Hw, Hpc. destruct (storage s); [congruence|].
      simpl_world. split; reflexivity. }
    destruct H1 as (Hs1 & Hpc1).
    destruct (transmitter_blocked cfg evs s1) as (Hr & Hp & _ & Hc & _);
      [rewrite Hs1; exact Hlt|].
    fold s' in Hr, Hp, Hc. rewrite Hr, Hp, Hc, Hpc1. repeat split.
  - intros Hpc Hpc1 Hlt.
    assert (H1 : t_sleep (transmitter s1) = pdMS_TO_TICKS cfg 2000
                 /\ ground_station_available (transmitter s1) = false).
    { revert Hpc1.
      unfold s1, step, vTelemetryTransmitterTask, telemetry_retrieve_packet.
      rewrite Hw. destruct (t_pc (transmitter s)); [congruence| |].
      - destruct (ground_station_available (transmitter s)) eqn:Hg;
          [destruct (0 <? telemetry_available_packets s)|]; simpl_world;
          try discriminate; auto.
      - destruct (storage s); simpl_world; try discriminate; auto. }
    destruct H1 as (Hs1 & Hg1).
    destruct (transmitter_blocked cfg evs s1) as (Hr & Hp & Hg & Hc & _);
      [rewrite Hs1; exact Hlt|].
    fold s' in Hr, Hp, Hg, Hc. rewrite Hr, Hp, Hg, Hc, Hpc1, Hg1.
    repeat split.
Qed.

(** A run X3 applies to: the transmitter ends an idle poll at tick 0 (the
    storage is empty); the collector stores four packets and the transmitter
    is scheduled again 1999 ticks later, still inside the contact window's
    first two seconds: it takes nothing. *)
Lemma transmitter_delays_hold_witness :
  let s := step demo_config RunTransmitter boot in
  let evs := [RunCollector quiet] ++ collector_cycle ++ pause 1999
             ++ [RunTransmitter; RunTransmitter] in
  let s' := run demo_config evs (step demo_config RunTransmitter s) in
  length (storage s') = 4%nat
  /\ retrieved_by Transmitter s' = []
  /\ t_pc (transmitter s') = T_Poll.
Proof.
  cbv zeta. split; [vm_compute; reflexivity|].
  destruct (transmitter_delays_hold demo_config
              (step demo_config RunTransmitter boot)
              ([RunCollector quiet] ++ collector_cycle ++ pause 1999
               ++ [RunTransmitter; RunTransmitter])) as (_ & Hpoll).
  - reflexivity.
  - destruct Hpoll as (Hr & Hpc & _).
    + discriminate.
    + reflexivity.
    + vm_compute. reflexivity.
    + rewrite Hr, Hpc. split; reflexivity.
Defined.

(** ** The collector's period *)

Lemma u32_small n : 0 <= n < 4294967296 -> u32 n = n.
Proof. intros H. unfold u32. now apply Z.mod_small. Qed.

Lemma pause_collector cfg n :
  forall s,
    let s' := run cfg (repeat Tick n) s in
    c_pc (collector s') = c_pc (collector s)
    /\ xLastWakeTime (collector s') = xLastWakeTime (collector s)
    /\ store_log s' = store_log s
    /\ ((0 < n)%nat -> xTickCount s' = u32 (xTickCount s + Z.of_nat n))
    /\ (Z.of_nat n <= c_sleep (collector s) ->
        c_sleep (collector s') = c_sleep (collector s) - Z.of_nat n).
Proof.
  induction n as [|n IH]; intros s; cbn [repeat run].
  - repeat split; [lia|]. intros _. cbn [Z.of_nat]. lia.
  - destruct (IH (step cfg Tick s)) as (Hpc & Hl & Hlog & Ht & Hs).
    cbv zeta. rewrite Hpc, Hl, Hlog. repeat split.
    + intros _. destruct n as [|n].
      * cbn [repeat run]. unfold step, xTaskIncrementTick. simpl_world.
        reflexivity.
      * rewrite Ht by lia. unfold step, xTaskIncrementTick. simpl_world.
        rewrite u32_add_l. f_equal. lia.
    + intros Hle. rewrite Hs; unfold step, xTaskIncrementTick; simpl_world;
        rewrite count_down_pos; lia.
Qed.

(** X4: the collector's wake-up times do not drift. At the end of a cycle
    the reference time advances by exactly the period (5000 ms in ticks),
    whenever the cycle ended. If the cycle ended before the new reference
    time, the collector stays blocked until the tick counter reaches it and
    is ready exactly then; if the cycle overran the period, the collector
    is ready at once. (Stated away from the wrap of the tick counter.) *)
Theorem collector_period :
  forall cfg r s,
    let now := xTickCount s in
    let last := xLastWakeTime (collector s) in
    let period := pdMS_TO_TICKS cfg 5000 in
    let s1 := step cfg (RunCollector r) s in
    c_pc (collector s) = C_Delay ->
    awake (c_sleep (collector s)) = true ->
    0 <= last -> 0 <= period -> last + period < 4294967296 ->
    c_pc (collector s1) = C_System
    /\ xLastWakeTime (collector s1) = last + period
    /\ store_log s1 = store_log s
    /\ (last <= now < last + period ->
        c_sleep (collector s1) = last + period - now
        /\ (forall k, Z.of_nat k < last + period - now ->
                      awake (c_sleep (collector (run cfg (repeat Tick k) s1)))
                      = false)
        /\ let s2 := run cfg (pause (last + period - now)) s1 in
           xTickCount s2 = last + period
           /\ awake (c_sleep (collector s2)) = true
           /\ c_pc (collector s2) = C_System)
    /\ (last + period <= now -> c_sleep (collector s1) = 0).
Proof.
  intros cfg r s now last period s1 Hpc Hw Hlast Hperiod Hmax.
  assert (Hwake : u32 (last + period) = last + period)
    by (apply u32_small; lia).
  assert (H1 : c_pc (collector s1) = C_System
               /\ xLastWakeTime (collector s1) = last + period
               /\ store_log s1 = store_log s
               /\ xTickCount s1 = now
               /\ c_sleep (collector s1)
                  = snd (vTaskDelayUntil now last period)).
  { unfold s1, step, vTelemetryCollectorTask. rewrite Hw, Hpc.
    unfold xTaskGetTickCount. fold now last period.
    unfold vTaskDelayUntil. rewrite Hwake. simpl_world. repeat split. }
  destruct H1 as (Hpc1 & Hl1 & Hlog1 & Ht1 & Hs1).
  split; [exact Hpc1|]. split; [exact Hl1|]. split; [exact Hlog1|]. split.
  - intros Hnow.
    assert (Hsleep : c_sleep (collector s1) = last + period - now).
    { rewrite Hs1. unfold vTaskDelayUntil. rewrite Hwake. cbn [snd].
      replace (now <? last) with false by (symmetry; apply Z.ltb_ge; lia).
      replace (now <? last + period) with true
        by (symmetry; apply Z.ltb_lt; lia).
      rewrite orb_true_r. apply u32_small. lia. }
    split; [exact Hsleep|]. split.
    + intros k Hk.
      destruct (pause_collector cfg k s1) as (_ & _ & _ & _ & Hs).
      rewrite Hs by lia. apply awake_false. lia.
    + unfold pause.
      destruct (pause_collector cfg (Z.to_nat (last + period - now)) s1)
        as (Hpc2 & _ & _ & Ht2 & Hs2).
      cbv zeta. rewrite Hpc2, Hs2, Hpc1, Ht2 by lia.
      rewrite Ht1, Z2Nat.id by lia.
      replace (now + (last + period - now)) with (last + period) by lia.
      rewrite Hwake.
      split; [reflexivity|].
      split; [unfold awake; apply Z.leb_le; lia|reflexivity].
  - intros Hover. rewrite Hs1. unfold vTaskDelayUntil. rewrite Hwake.
    cbn [snd].
    replace (last + period <? last) with false
      by (symmetry; apply Z.ltb_ge; lia).
    replace (now <? last + period) with false
      by (symmetry; apply Z.ltb_ge; lia).
    destruct (now <? last); reflexivity.
Qed.

(** A run X4 applies to: the first cycle, started at tick 0, ends at tick 7;
    the collector is put to sleep for 4993 ticks and is ready again at tick
    5000. *)
Lemma collector_period_witness :
  let s := run demo_config
             ([RunCollector quiet] ++ repeat (RunCollector quiet) 4 ++ pause 7)
             boot in
  let s1 := step demo_config (RunCollector quiet) s in
  let s2 := run demo_config (pause 4993) s1 in
  xTickCount s = 7
  /\ xLastWakeTime (collector s1) = 5000
  /\ c_sleep (collector s1) = 4993
  /\ xTickCount s2 = 5000
  /\ awake (c_sleep (collector s2)) = true.
Proof.
  cbv zeta.
  set (s := run demo_config
              ([RunCollector quiet] ++ repeat (RunCollector quiet) 4 ++ pause 7)
              boot).
  assert (Hnow : xTickCount s = 7) by (vm_compute; reflexivity).
  assert (Hlast : xLastWakeTime (collector s) = 0) by (vm_compute; reflexivity).
  assert (Hperiod : pdMS_TO_TICKS demo_config 5000 = 5000)
    by (vm_compute; reflexivity).
  destruct (collector_period demo_config quiet s)
    as (_ & Hl1 & _ & Hearly & _).
  - vm_compute. reflexivity.
  - vm_compute. reflexivity.
  - rewrite Hlast. lia.
  - rewrite Hperiod. lia.
  - rewrite Hlast, Hperiod. lia.
  - rewrite Hlast, Hperiod, Hnow in Hearly.
    destruct Hearly as (Hs1 & _ & Ht2 & Hw2 & _); [lia|].
    rewrite Hlast, Hperiod in Hl1.
    change (0 + 5000 - 7) with 4993 in Hs1, Ht2, Hw2.
    change (0 + 5000) with 5000 in Hl1, Ht2.
    repeat split; assumption.
Defined.

(** * More on the packets *)

(** ** Every packet is well formed *)

(** The history of store calls grows only by packets that a generator
    stamped at the collector's current point of its loop body. *)
Lemma step_store_log cfg e s :
  store_log (step cfg e s) = store_log s
  \/ exists ty prio next p ok s0,
       generator_at (c_pc (collector s)) = Some (ty, prio, next)
       /\ generated cfg ty prio s s0 p ok
       /\ store_log (step cfg e s) = store_log s ++ [(p, ok)]
       /\ c_pc (collector (step cfg e s)) = next.
Proof.
  assert (Hother : collector_free [e] = true ->
                   store_log (step cfg e s) = store_log s).
  { intros Hfree.
    destruct (others_keep_collector cfg [e] Hfree s) as (Hl & _). exact Hl. }
  destruct e as [|r| |]; try (left; apply Hother; reflexivity).
  destruct (awake (c_sleep (collector s))) eqn:Hw.
  - destruct (generator_at (c_pc (collector s))) as [[[ty prio] next]|] eqn:Hat.
    + right.
      destruct (collector_generates cfg r s Hat Hw) as (p & s0 & G & Hstep).
      exists ty, prio, next, p, (length (storage s) <? capacity cfg)%nat, s0.
      rewrite Hstep. simpl_world. rewrite (gen_log G). auto.
    + left. unfold step, vTelemetryCollectorTask. rewrite Hw.
      destruct (c_pc (collector s)); try discriminate Hat.
      * reflexivity.
      * destruct (vTaskDelayUntil _ _ _). reflexivity.
  - left. unfold step, vTelemetryCollectorTask. rewrite Hw. reflexivity.
Qed.

Lemma generator_at_priority pc ty prio next :
  generator_at pc = Some (ty, prio, next) -> prio = priority_of ty.
Proof.
  destruct pc; cbn; intros H; inversion H; subst; reflexivity.
Qed.

Lemma inv_well_formed cfg s :
  reachable cfg s ->
  Forall (fun x => payload_type (payload (fst x)) = type (header (fst x))
                   /\ priority (header (fst x))
                      = priority_of (type (header (fst x))))
         (store_log s).
Proof.
  induction 1 as [|e s Hs IH]; [constructor|].
  destruct (step_store_log cfg e s)
    as [Hl|(ty & prio & next & p & ok & s0 & Hat & G & Hl & _)];
    rewrite Hl; [exact IH|].
  apply Forall_app. split; [exact IH|].
  constructor; [|constructor]. cbn [fst].
  rewrite (gen_payload G), (gen_header G). cbn [type priority].
  split; [reflexivity|]. eapply generator_at_priority; eauto.
Qed.

Lemma dequeued_or_stored_in_log cfg s p :
  reachable cfg s ->
  In p (dequeued s) \/ In p (storage s) ->
  In (p, true) (store_log s).
Proof.
  intros Hs Hin.
  assert (Hst : In p (stored s)).
  { rewrite <- (inv_flow Hs). apply in_or_app. exact Hin. }
  unfold stored in Hst. apply in_map_iff in Hst as [[p' ok] [Hp Hf]].
  apply filter_In in Hf as [Hf Hok]. cbn in Hp, Hok. subst. exact Hf.
Qed.

(** X5: every packet that sits in the storage or was handed to a consumer
    carries the payload structure that its header type selects, so the
    dispatch on [header.type] in the processor reads the structure that was
    written, and carries the priority fixed for its type (2 for Power, 1
    otherwise). *)
Theorem packets_well_formed :
  forall cfg evs p,
    let s := run cfg evs boot in
    In p (dequeued s) \/ In p (storage s) ->
    payload_type (payload p) = type (header p)
    /\ priority (header p) = priority_of (type (header p)).
Proof.
  intros cfg evs p s Hin.
  pose proof (reachable_run cfg evs) as Hs. fold s in Hs.
  pose proof (inv_well_formed Hs) as Hwf.
  rewrite Forall_forall in Hwf.
  exact (Hwf _ (dequeued_or_stored_in_log p Hs Hin)).
Qed.

(** A run X5 applies to: the second packet the processor takes after the
    first cycle is the Power packet, with its Power structure and
    priority 2. *)
Lemma packets_well_formed_witness :
  let s := run demo_config
             ([RunCollector quiet] ++ collector_cycle ++ repeat RunProcessor 2)
             boot in
  exists p,
    In p (dequeued s)
    /\ type (header p) = TELEM_POWER_DATA
    /\ payload_type (payload p) = TELEM_POWER_DATA
    /\ priority (header p) = 2.
Proof.
  cbv zeta.
  let l := eval vm_compute in
             (dequeued (run demo_config
                          ([RunCollector quiet] ++ collector_cycle
                           ++ repeat RunProcessor 2) boot)) in
  match l with
  | [_; ?p] =>
      exists p;
      assert (Hin : In p (dequeued (run demo_config
                                      ([RunCollector quiet] ++ collector_cycle
                                       ++ repeat RunProcessor 2) boot)))
        by (vm_compute; right; left; reflexivity);
      destruct (packets_well_formed demo_config
                  ([RunCollector quiet] ++ collector_cycle
                   ++ repeat RunProcessor 2) p (or_introl Hin)) as [Hpay Hprio]
  end.
  split; [exact Hin|]. split; [reflexivity|].
  split; [rewrite Hpay; reflexivity|]. rewrite Hprio. reflexivity.
Defined.

(** ** The type follows from the sequence number *)

Lemma step_collector_phase cfg e s :
  (store_log (step cfg e s) = store_log s
   /\ (c_pc (collector (step cfg e s)) = c_pc (collector s)
       \/ (generator_at (c_pc (collector s)) = None
           /\ c_pc (collector (step cfg e s)) = C_System)))
  \/ exists ty prio next p ok,
       generator_at (c_pc (collector s)) = Some (ty, prio, next)
       /\ type (header p) = ty
       /\ store_log (step cfg e s) = store_log s ++ [(p, ok)]
       /\ c_pc (collector (step cfg e s)) = next.
Proof.
  assert (Hother : collector_free [e] = true ->
                   store_log (step cfg e s) = store_log s
                   /\ c_pc (collector (step cfg e s)) = c_pc (collector s)).
  { intros Hfree.
    destruct (others_keep_collector cfg [e] Hfree s) as (Hl & _ & Hpc & _).
    auto. }
  destruct e as [|r| |];
    try (left; destruct Hother as [Hl Hpc]; [reflexivity|]; now auto).
  destruct (awake (c_sleep (collector s))) eqn:Hw.
  - destruct (generator_at (c_pc (collector s))) as [[[ty prio] next]|] eqn:Hat.
    + right.
      destruct (collector_generates cfg r s Hat Hw) as (p & s0 & G & Hstep).
      exists ty, prio, next, p, (length (storage s) <? capacity cfg)%nat.
      rewrite Hstep. simpl_world.
      rewrite (gen_log G), (gen_header G). auto.
    + left. unfold step, vTelemetryCollectorTask. rewrite Hw.
      destruct (c_pc (collector s)); try discriminate Hat.
      * simpl_world. auto.
      * destruct (vTaskDelayUntil _ _ _). simpl_world. auto.
  - left. unfold step, vTelemetryCollectorTask. rewrite Hw. auto.
Qed.

Lemma typing_S n : typing (S n) = typing n ++ [type_of_sequence (Z.of_nat n)].
Proof. unfold typing. now rewrite seq_S, map_app. Qed.

Lemma typing_nth n i :
  (i < n)%nat -> nth_error (typing n) i = Some (type_of_sequence (Z.of_nat i)).
Proof.
  intros Hi. unfold typing.
  rewrite nth_error_map, nth_error_nth' with (d := 0%nat)
    by now rewrite length_seq.
  now rewrite seq_nth.
Qed.

Lemma inv_typing cfg s :
  reachable cfg s ->
  cycle_phase (c_pc (collector s)) (Z.of_nat (length (store_log s)))
  /\ map (fun x => type (header (fst x))) (store_log s)
     = typing (length (store_log s)).
Proof.
  induction 1 as [|e s Hs [IHp IHt]]; [split; reflexivity|].
  destruct (step_collector_phase cfg e s)
    as [[Hl [Hpc|[Hat Hpc]]]|(ty & prio & next & p & ok & Hat & Hty & Hl & Hpc)];
    rewrite Hl, Hpc.
  - split; assumption.
  - split; [|assumption].
    destruct (c_pc (collector s)); try discriminate Hat; cbn in IHp |- *.
    + rewrite IHp. reflexivity.
    + exact IHp.
  - rewrite length_app, map_app, IHt, Nat.add_1_r, typing_S.
    cbn [length map fst]. rewrite Hty.
    destruct (c_pc (collector s)); cbn in Hat; inversion Hat; subst;
      cbn [cycle_phase] in IHp |- *; unfold type_of_sequence; rewrite IHp;
      (split; [|reflexivity]); rewrite Nat2Z.inj_succ;
      unfold Z.succ; rewrite Z.add_mod, IHp by discriminate; reflexivity.
Qed.

Lemma type_of_sequence_u16 n : type_of_sequence (u16 n) = type_of_sequence n.
Proof.
  unfold type_of_sequence, u16.
  rewrite Z.mod_mod_divide; [reflexivity|].
  exists 16384. reflexivity.
Qed.

(** X6: for every packet that sits in the storage or was handed to a
    consumer, the header type is determined by the sequence number modulo
    4: 0 System, 1 Power, 2 Temperature, 3 Subsystem. This holds across the
    wrap of the 16-bit counter and whatever packets the storage refused. *)
Theorem type_from_sequence :
  forall cfg evs p,
    let s := run cfg evs boot in
    In p (dequeued s) \/ In p (storage s) ->
    type (header p) = type_of_sequence (seq_of p).
Proof.
  intros cfg evs p s Hin.
  pose proof (reachable_run cfg evs) as Hs. fold s in Hs.
  pose proof (dequeued_or_stored_in_log p Hs Hin) as Hlog.
  apply In_nth_error in Hlog as [i Hi].
  assert (Hlt : (i < length (store_log s))%nat)
    by (apply nth_error_Some; congruence).
  destruct (inv_sequence Hs) as [_ Hnum].
  destruct (inv_typing Hs) as [_ Htyp].
  assert (Hseq : seq_of p = u16 (Z.of_nat i)).
  { pose proof (map_nth_error (fun x => seq_of (fst x)) i (store_log s) Hi)
      as H.
    rewrite Hnum, numbering_nth in H by exact Hlt. cbn [fst] in H.
    congruence. }
  assert (Hty : type (header p) = type_of_sequence (Z.of_nat i)).
  { pose proof (map_nth_error (fun x => type (header (fst x))) i
                  (store_log s) Hi) as H.
    rewrite Htyp, typing_nth in H by exact Hlt. cbn [fst] in H.
    congruence. }
  rewrite Hty, Hseq, type_of_sequence_u16. reflexivity.
Qed.

(** A run X6 applies to: in [gap_schedule] the last packet the processor
    takes is numbered 8, after four refused packets, and is a System
    packet. *)
Lemma type_from_sequence_witness :
  let s := run demo_config gap_schedule boot in
  exists p,
    In p (dequeued s) /\ seq_of p = 8 /\ type (header p) = TELEM_SYSTEM_STATUS.
Proof.
  cbv zeta.
  let l := eval vm_compute in (dequeued (run demo_config gap_schedule boot)) in
  match l with
  | [_; _; _; _; ?p] =>
      exists p;
      assert (Hin : In p (dequeued (run demo_config gap_schedule boot)))
        by (vm_compute; do 4 right; left; reflexivity);
      pose proof (type_from_sequence demo_config gap_schedule p
                    (or_introl Hin)) as Hty
  end.
  split; [exact Hin|]. split; [reflexivity|].
  rewrite Hty. reflexivity.
Defined.

(** ** The uptime counter *)

Lemma step_uptime cfg e s :
  let s' := step cfg e s in
  (store_log s' = store_log s
   /\ system_uptime (generators s') = system_uptime (generators s))
  \/ exists p ok,
       store_log s' = store_log s ++ [(p, ok)]
       /\ ((uptime_seconds_of [p] = [system_uptime (generators s)]
            /\ system_uptime (generators s')
               = u32 (system_uptime (generators s) + 1))
           \/ (uptime_seconds_of [p] = []
               /\ system_uptime (generators s')
                  = system_uptime (generators s))).
Proof.
  cbv zeta.
  assert (Hother : collector_free [e] = true ->
                   store_log (step cfg e s) = store_log s
                   /\ system_uptime (generators (step cfg e s))
                      = system_uptime (generators s)).
  { intros Hfree.
    destruct (others_keep_collector cfg [e] Hfree s) as (Hl & Hg & _).
    cbn [run] in Hl, Hg. rewrite Hl, Hg. auto. }
  destruct e as [|r| |]; try (left; apply Hother; reflexivity).
  unfold step, vTelemetryCollectorTask.
  destruct (awake (c_sleep (collector s))); [|left; auto].
  destruct (c_pc (collector s)).
  - left. auto.
  - right. unfold generate_system_telemetry, telemetry_store_packet.
    simpl_world.
    destruct (length (storage s) <? capacity cfg)%nat; simpl_world;
      eexists; eexists; (split; [reflexivity|]); left; split; reflexivity.
  - right. unfold generate_power_telemetry, telemetry_store_packet.
    simpl_world.
    destruct (length (storage s) <? capacity cfg)%nat; simpl_world;
      eexists; eexists; (split; [reflexivity|]); right; split; reflexivity.
  - right. unfold generate_temperature_telemetry, telemetry_store_packet.
    simpl_world.
    destruct (length (storage s) <? capacity cfg)%nat; simpl_world;
      eexists; eexists; (split; [reflexivity|]); right; split; reflexivity.
  - right. unfold generate_subsystem_telemetry, telemetry_store_packet.
    simpl_world.
    destruct (length (storage s) <? capacity cfg)%nat; simpl_world;
      eexists; eexists; (split; [reflexivity|]); right; split; reflexivity.
  - left. destruct (vTaskDelayUntil _ _ _). auto.
Qed.

Lemma uptime_seconds_of_app l1 l2 :
  uptime_seconds_of (l1 ++ l2) = uptime_seconds_of l1 ++ uptime_seconds_of l2.
Proof. unfold uptime_seconds_of. apply flat_map_app. Qed.

(** X7: the uptime counter counts the System packets generated, not
    seconds: it is the number of System packets generated so far (modulo
    2^32), only the System generator advances it, and the System packets,
    in the order generated, carry the uptimes 0, 1, 2, ... *)
Theorem uptime_counts_system_packets :
  forall cfg evs,
    let s := run cfg evs boot in
    let uptimes := uptime_seconds_of (map fst (store_log s)) in
    system_uptime (generators s) = u32 (Z.of_nat (length uptimes))
    /\ uptimes = map (fun i => u32 (Z.of_nat i)) (seq 0 (length uptimes)).
Proof.
  intros cfg evs. cbv zeta.
  pose proof (reachable_run cfg evs) as Hs.
  induction Hs as [|e s Hs [IHu IHl]]; [split; reflexivity|].
  destruct (step_uptime cfg e s)
    as [[Hl Hu]|(p & ok & Hl & [[Hp Hu]|[Hp Hu]])]; rewrite Hl, Hu.
  - split; assumption.
  - rewrite map_app, uptime_seconds_of_app. cbn [map fst]. rewrite Hp.
    rewrite length_app. cbn [length]. rewrite Nat.add_1_r, seq_S, map_app.
    cbn [map Nat.add]. rewrite <- IHl, IHu, u32_succ. split; [|reflexivity].
    f_equal. lia.
  - rewrite map_app, uptime_seconds_of_app. cbn [map fst]. rewrite Hp.
    rewrite app_nil_r. split; assumption.
Qed.

(** X8: while the uptime counter is below 86 * 3600, the Power packet's
    battery level is 85 minus the counter divided by 3600 (rounded down), a
    value between 0 and 85. *)
Theorem battery_level_decays :
  forall cfg r s,
    0 <= system_uptime (generators s) < 309600 ->
    exists p ok body,
      store_log (generate_power_telemetry cfg r s) = store_log s ++ [(p, ok)]
      /\ payload p = power body
      /\ PowerTelem.battery_level body
         = 85 - system_uptime (generators s) / 3600
      /\ 0 <= PowerTelem.battery_level body <= 85.
Proof.
  intros cfg r s Hup.
  assert (Hq : 0 <= system_uptime (generators s) / 3600 <= 85).
  { split; [apply Z.div_pos; lia|].
    apply Z.lt_succ_r. apply Z.div_lt_upper_bound; lia. }
  unfold generate_power_telemetry, telemetry_store_packet. simpl_world.
  destruct (length (storage s) <? capacity cfg)%nat; simpl_world;
    eexists; eexists; eexists;
    (split; [reflexivity|]); (split; [reflexivity|]);
    cbn [PowerTelem.battery_level]; rewrite u32_small by lia;
    split; lia.
Qed.

(** A state X8 applies to: the first cycle, where the counter is 1 when the
    Power generator runs and the battery level is 85. *)
Lemma battery_level_decays_witness :
  let s := run demo_config (repeat (RunCollector quiet) 2) boot in
  system_uptime (generators s) = 1
  /\ exists p ok body,
       store_log (generate_power_telemetry demo_config quiet s)
       = store_log s ++ [(p, ok)]
       /\ payload p = power body
       /\ PowerTelem.battery_level body = 85.
Proof.
  cbv zeta.
  assert (Hup : system_uptime (generators
                  (run demo_config (repeat (RunCollector quiet) 2) boot)) = 1)
    by (vm_compute; reflexivity).
  split; [exact Hup|].
  destruct (battery_level_decays demo_config quiet
              (run demo_config (repeat (RunCollector quiet) 2) boot))
    as (p & ok & body & Hlog & Hpay & Hlevel & _).
  { rewrite Hup. lia. }
  exists p, ok, body. split; [exact Hlog|]. split; [exact Hpay|].
  rewrite Hlevel, Hup. reflexivity.
Defined.

(** ** Virtual readings, more precisely *)

Lemma within_spec lo hi x : within lo hi x = true -> lo <= x <= hi.
Proof.
  unfold within. intros H. apply andb_true_iff in H as [H1 H2].
  apply Z.leb_le in H1, H2. lia.
Qed.

Lemma strictly_below_spec hi x :
  strictly_below hi x = true -> (F32.to_Q x < hi)%Q.
Proof.
  unfold strictly_below. intros H. apply negb_true_iff in H.
  apply Qnot_le_lt. intros Hle. apply Qle_bool_iff in Hle. congruence.
Qed.

Lemma voltage_values_one_sided :
  forallb (fun k =>
             let v := F32.add (F32.lit 33 10)
                              (F32.div (F32.of_Z k) (F32.of_Z 1000)) in
             Qle_bool (F32.to_Q (F32.lit 33 10)) (F32.to_Q v)
             && strictly_below (35 # 10) v)
          (below 200) = true.
Proof. vm_compute. reflexivity. Qed.

Lemma temperature_values_one_sided :
  forallb (fun k =>
             let t := F32.add (F32.of_Z 25)
                              (F32.div (F32.of_Z k) (F32.of_Z 10)) in
             Qle_bool (25 # 1) (F32.to_Q t) && strictly_below (40 # 1) t
             && readings_in_range t)
          (below 150) = true.
Proof. vm_compute. reflexivity. Qed.

(** X9: the jitter of the virtual sensors is never negative. Whatever
    [esp_random] returns, the virtual voltage is at least the float 3.3f
    and below 3.5, and the virtual temperature is at least 25 and below
    40. *)
Theorem virtual_readings_one_sided :
  forall rnd,
    (F32.to_Q (F32.lit 33 10) <= F32.to_Q (read_virtual_voltage rnd))%Q
    /\ (F32.to_Q (read_virtual_voltage rnd) < 35 # 10)%Q
    /\ (25 # 1 <= F32.to_Q (read_virtual_temperature rnd))%Q
    /\ (F32.to_Q (read_virtual_temperature rnd) < 40 # 1)%Q.
Proof.
  intros rnd.
  assert (Hv : 0 <= u32 rnd mod 200 < Z.of_nat 200)
    by (change (Z.of_nat 200) with 200; apply Z.mod_pos_bound; lia).
  assert (Ht : 0 <= u32 rnd mod 150 < Z.of_nat 150)
    by (change (Z.of_nat 150) with 150; apply Z.mod_pos_bound; lia).
  pose proof (forallb_below _ 200 voltage_values_one_sided Hv) as H1.
  pose proof (forallb_below _ 150 temperature_values_one_sided Ht) as H2.
  cbv zeta in H1, H2.
  apply andb_true_iff in H1 as [H1 H1'].
  apply andb_true_iff in H2 as [H2 _].
  apply andb_true_iff in H2 as [H2 H2'].
  apply Qle_bool_iff in H1, H2.
  apply strictly_below_spec in H1', H2'.
  unfold read_virtual_voltage, read_virtual_temperature. auto.
Qed.

Lemma temperature_readings_in_range rnd :
  readings_in_range (read_virtual_temperature rnd) = true.
Proof.
  assert (Ht : 0 <= u32 rnd mod 150 < Z.of_nat 150)
    by (change (Z.of_nat 150) with 150; apply Z.mod_pos_bound; lia).
  pose proof (forallb_below _ 150 temperature_values_one_sided Ht) as H.
  cbv zeta in H. apply andb_true_iff in H as [_ H]. exact H.
Qed.

(** X10: with WOKWI defined, the integer readings the generators store are
    bounded whatever [esp_random] returns: in the Temperature packet the
    on-board computer and battery temperatures lie in 25..39, the comms
    temperature in 20..34, the payload temperature in 28..42 and the
    external temperature in 15..29; in the Power packet the battery
    temperature lies in 25..39. *)
Theorem wokwi_readings_bounded :
  forall cfg r s,
    WOKWI cfg = true ->
    (exists p ok body,
        store_log (generate_temperature_telemetry cfg r s)
        = store_log s ++ [(p, ok)]
        /\ payload p = temperature body
        /\ 25 <= TemperatureTelem.obc_temperature body <= 39
        /\ 20 <= TemperatureTelem.comms_temperature body <= 34
        /\ 28 <= TemperatureTelem.payload_temperature body <= 42
        /\ 25 <= TemperatureTelem.battery_temperature body <= 39
        /\ 15 <= TemperatureTelem.external_temperature body <= 29)
    /\ (exists p ok body,
           store_log (generate_power_telemetry cfg r s)
           = store_log s ++ [(p, ok)]
           /\ payload p = power body
           /\ 25 <= PowerTelem.battery_temperature body <= 39).
Proof.
  intros cfg r s Hw.
  assert (Hrange : forall rnd,
             25 <= F32.to_int (read_virtual_temperature rnd) <= 39
             /\ 20 <= F32.to_int (F32.sub (read_virtual_temperature rnd)
                                          (F32.of_Z 5)) <= 34
             /\ 28 <= F32.to_int (F32.add (read_virtual_temperature rnd)
                                          (F32.of_Z 3)) <= 42
             /\ 15 <= F32.to_int (F32.sub (read_virtual_temperature rnd)
                                          (F32.of_Z 10)) <= 29).
  { intros rnd. pose proof (temperature_readings_in_range rnd) as H.
    unfold readings_in_range in H.
    apply andb_true_iff in H as [H H4]. apply andb_true_iff in H as [H H3].
    apply andb_true_iff in H as [H1 H2].
    apply within_spec in H1, H2, H3, H4. auto. }
  split.
  - unfold generate_temperature_telemetry, telemetry_store_packet.
    rewrite Hw. simpl_world.
    destruct (Hrange (esp_random r 0%nat)) as (H0 & _).
    destruct (Hrange (esp_random r 1%nat)) as (_ & H1 & _).
    destruct (Hrange (esp_random r 2%nat)) as (_ & _ & H2 & _).
    destruct (Hrange (esp_random r 3%nat)) as (H3 & _).
    destruct (Hrange (esp_random r 4%nat)) as (_ & _ & _ & H4).
    destruct (length (storage s) <? capacity cfg)%nat; simpl_world;
      eexists; eexists; eexists;
      (split; [reflexivity|]); (split; [reflexivity|]);
      cbn [TemperatureTelem.obc_temperature TemperatureTelem.comms_temperature
           TemperatureTelem.payload_temperature
           TemperatureTelem.battery_temperature
           TemperatureTelem.external_temperature];
      auto.
  - unfold generate_power_telemetry, telemetry_store_packet.
    rewrite Hw. simpl_world.
    destruct (Hrange (esp_random r 1%nat)) as (H1 & _).
    destruct (length (storage s) <? capacity cfg)%nat; simpl_world;
      eexists; eexists; eexists;
      (split; [reflexivity|]); (split; [reflexivity|]);
      cbn [PowerTelem.battery_temperature]; auto.
Qed.

(** A call X10 applies to: the Temperature generator in the simulated
    configuration, on the booted program. *)
Lemma wokwi_readings_bounded_witness :
  WOKWI demo_config = true
  /\ exists p ok body,
       store_log (generate_temperature_telemetry demo_config quiet boot)
       = store_log boot ++ [(p, ok)]
       /\ payload p = temperature body
       /\ 15 <= TemperatureTelem.external_temperature body <= 29.
Proof.
  split; [reflexivity|].
  destruct (wokwi_readings_bounded demo_config quiet boot eq_refl)
    as ((p & ok & body & Hlog & Hpay & _ & _ & _ & _ & Hext) & _).
  exists p, ok, body. auto.
Defined.

(** ** Timestamps *)

Lemma step_tick cfg e s :
  xTickCount (step cfg e s)
  = match e with
    | Tick => u32 (xTickCount s + 1)
    | _ => xTickCount s
    end.
Proof.
  destruct e as [|r| |]; unfold step.
  - reflexivity.
  - unfold vTelemetryCollectorTask.
    destruct (awake (c_sleep (collector s))); [|reflexivity].
    destruct (c_pc (collector s)); simpl_world.
    + reflexivity.
    + destruct (generate_system_telemetry_generated cfg r s) as [p G].
      apply (gen_tick G).
    + destruct (generate_power_telemetry_generated cfg r s) as [p G].
      apply (gen_tick G).
    + destruct (generate_temperature_telemetry_generated cfg r s) as [p G].
      apply (gen_tick G).
    + destruct (generate_subsystem_telemetry_generated cfg r s) as [p G].
      apply (gen_tick G).
    + destruct (vTaskDelayUntil _ _ _). reflexivity.
  - unfold vTelemetryProcessorTask, telemetry_retrieve_packet.
    destruct (awake (p_sleep (processor s))); [|reflexivity].
    destruct (storage s); reflexivity.
  - unfold vTelemetryTransmitterTask, telemetry_retrieve_packet.
    destruct (awake (t_sleep (transmitter s))); [|reflexivity].
    destruct (t_pc (transmitter s)); simpl_world; [reflexivity| |].
    + destruct (ground_station_available (transmitter s));
        [destruct (0 <? telemetry_available_packets s)|]; reflexivity.
    + destruct (storage s); reflexivity.
Qed.

Lemma ticks_app evs1 evs2 : ticks (evs1 ++ evs2) = (ticks evs1 + ticks evs2)%nat.
Proof. unfold ticks. now rewrite filter_app, length_app. Qed.

Lemma StronglySorted_snoc {A} (R : A -> A -> Prop) l x :
  StronglySorted R l -> Forall (fun y => R y x) l ->
  StronglySorted R (l ++ [x]).
Proof.
  induction 1 as [|a l Hl IH Ha]; intros Hx; cbn.
  - repeat constructor.
  - inversion Hx; subst. constructor; [auto|].
    apply Forall_app. split; [exact Ha|]. repeat constructor. assumption.
Qed.

Lemma StronglySorted_map_filter {A B} (R : B -> B -> Prop) (f : A -> B)
    (g : A -> bool) l :
  StronglySorted R (map f l) -> StronglySorted R (map f (filter g l)).
Proof.
  induction l as [|a l IH]; cbn; intros H; [constructor|].
  apply StronglySorted_inv in H as [Hl Ha].
  destruct (g a); cbn; [|auto].
  constructor; [auto|].
  rewrite Forall_forall in Ha |- *. intros y Hy. apply Ha.
  apply in_map_iff in Hy as [z [Hz Hin]]. apply filter_In in Hin as [Hin _].
  apply in_map_iff. eauto.
Qed.

Lemma Forall_map_filter {A B} (P : B -> Prop) (f : A -> B) (g : A -> bool) l :
  Forall P (map f l) -> Forall P (map f (filter g l)).
Proof.
  rewrite !Forall_forall. intros H y Hy. apply H.
  apply in_map_iff in Hy as [z [Hz Hin]]. apply filter_In in Hin as [Hin _].
  apply in_map_iff. eauto.
Qed.

(** While the tick counter has not wrapped it equals the number of ticks,
    every packet ever handed to the store is stamped with a tick count not
    in the future, and the stamps are in non-decreasing order. *)
Lemma inv_timestamps cfg evs :
  let s := run cfg evs boot in
  Z.of_nat (ticks evs) < 4294967296 ->
  xTickCount s = Z.of_nat (ticks evs)
  /\ StronglySorted Z.le
       (map (fun x => timestamp (header (fst x))) (store_log s))
  /\ Forall (fun t => 0 <= t <= xTickCount s)
       (map (fun x => timestamp (header (fst x))) (store_log s)).
Proof.
  induction evs as [|e evs IH] using rev_ind; cbv zeta.
  - intros _. repeat split; constructor.
  - rewrite run_app, ticks_app. cbn [run]. intros Hlt.
    destruct IH as (Ht & Hsorted & Hbound); [lia|].
    set (s := run cfg evs boot) in *.
    assert (Htick : xTickCount (step cfg e s)
                    = Z.of_nat (ticks evs + ticks [e])).
    { rewrite step_tick, Ht.
      destruct e; change (ticks [Tick]) with 1%nat in *;
        [rewrite u32_small; lia| | |];
        match goal with
        | |- context [ticks [?e]] => change (ticks [e]) with 0%nat
        end; f_equal; lia. }
    assert (Hmono : xTickCount s <= xTickCount (step cfg e s))
      by (rewrite Htick, Ht; lia).
    split; [exact Htick|].
    destruct (step_store_log cfg e s)
      as [Hl|(ty & prio & next & p & ok & s0 & _ & G & Hl & _)]; rewrite Hl.
    + split; [exact Hsorted|].
      eapply Forall_impl; [|exact Hbound]. cbv beta. intros t Hb. lia.
    + rewrite map_app. cbn [map fst]. rewrite (gen_header G). cbn [timestamp].
      split.
      * apply StronglySorted_snoc; [exact Hsorted|].
        eapply Forall_impl; [|exact Hbound]. cbv beta. intros t Hb. lia.
      * apply Forall_app. split.
        -- eapply Forall_impl; [|exact Hbound]. cbv beta. intros t Hb. lia.
        -- repeat constructor; lia.
Qed.

(** X11: while the tick counter has not wrapped (fewer than 2^32 ticks),
    the packets leave the storage with non-decreasing timestamps: the
    timestamps of the packets taken out so far followed by those still
    inside are in non-decreasing order, and none is later than the current
    tick count. *)
Theorem timestamps_ordered :
  forall cfg evs,
    let s := run cfg evs boot in
    let stamps := map (fun p => timestamp (header p))
                      (dequeued s ++ storage s) in
    Z.of_nat (ticks evs) < 4294967296 ->
    StronglySorted Z.le stamps
    /\ Forall (fun t => 0 <= t <= xTickCount s) stamps.
Proof.
  intros cfg evs s stamps Hlt.
  destruct (inv_timestamps cfg evs Hlt) as (_ & Hsorted & Hbound).
  fold s in Hsorted, Hbound.
  pose proof (inv_flow (reachable_run cfg evs)) as Hflow. fold s in Hflow.
  unfold stamps. rewrite Hflow. unfold stored.
  rewrite map_map.
  split.
  - apply (@StronglySorted_map_filter _ _ Z.le
             (fun x => timestamp (header (fst x))) snd). exact Hsorted.
  - apply (@Forall_map_filter _ _ _ (fun x => timestamp (header (fst x))) snd).
    exact Hbound.
Qed.

(** A run X11 applies to: in [gap_schedule] the processor receives packets
    stamped at ticks 0, 0, 0, 0 and 10000. *)
Lemma timestamps_ordered_witness :
  let s := run demo_config gap_schedule boot in
  map (fun p => timestamp (header p)) (dequeued s ++ storage s)
  = [0; 0; 0; 0; 10000]
  /\ StronglySorted Z.le
       (map (fun p => timestamp (header p)) (dequeued s ++ storage s)).
Proof.
  cbv zeta. split; [vm_compute; reflexivity|].
  apply (timestamps_ordered demo_config gap_schedule).
  vm_compute. reflexivity.
Defined.

(** ** The contact window *)

(** X12: the gate test holds during the first 1000 ticks of every 30000
    ticks and at no other time. Two tick counts that both pass the test and
    are at least 1000 ticks apart therefore lie in different windows, more
    than 29000 ticks apart. *)
Theorem contact_window_shape :
  forall t,
    0 <= t ->
    (contact_window t = true <-> t mod 30000 < 1000)
    /\ (forall t',
           contact_window t = true -> contact_window t' = true ->
           t + 1000 <= t' -> t + 29000 < t').
Proof.
  intros t Ht.
  assert (Hshape : forall u, 0 <= u ->
                     (contact_window u = true <-> u mod 30000 < 1000)).
  { intros u Hu. unfold contact_window. rewrite Z.eqb_eq.
    pose proof (Z.div_mod u 1000 ltac:(lia)) as E1.
    pose proof (Z.mod_pos_bound u 1000 ltac:(lia)) as B1.
    pose proof (Z.div_mod (u / 1000) 30 ltac:(lia)) as E2.
    pose proof (Z.mod_pos_bound (u / 1000) 30 ltac:(lia)) as B2.
    pose proof (Z.div_mod u 30000 ltac:(lia)) as E3.
    pose proof (Z.mod_pos_bound u 30000 ltac:(lia)) as B3.
    split; intros H; lia. }
  split; [apply Hshape; exact Ht|].
  intros t' H H' Hfar.
  apply Hshape in H; [|exact Ht]. apply Hshape in H'; [|lia].
  pose proof (Z.div_mod t 30000 ltac:(lia)) as E.
  pose proof (Z.div_mod t' 30000 ltac:(lia)) as E'.
  pose proof (Z.mod_pos_bound t 30000 ltac:(lia)) as B.
  pose proof (Z.mod_pos_bound t' 30000 ltac:(lia)) as B'.
  lia.
Qed.

(** Tick counts X12 applies to: 30500 and 60200 both pass the gate test. *)
Lemma contact_window_shape_witness :
  contact_window 30500 = true
  /\ contact_window 60200 = true
  /\ 30500 mod 30000 < 1000
  /\ 30500 + 29000 < 60200.
Proof.
  destruct (@contact_window_shape 30500 ltac:(lia)) as [Hshape Hfar].
  assert (H1 : contact_window 30500 = true) by reflexivity.
  assert (H2 : contact_window 60200 = true) by reflexivity.
  split; [exact H1|]. split; [exact H2|].
  split; [apply Hshape; exact H1|].
  apply (Hfar 60200 H1 H2). lia.
Defined.

(** ** Sequence numbers seen by each consumer *)

Lemma StronglySorted_app_l {A} (R : A -> A -> Prop) l1 l2 :
  StronglySorted R (l1 ++ l2) -> StronglySorted R l1.
Proof.
  induction l1 as [|a l1 IH]; cbn; intros H; [constructor|].
  apply StronglySorted_inv in H as [Hl Ha].
  constructor; [auto|]. apply Forall_app in Ha as [Ha _]. exact Ha.
Qed.

Lemma numbering_increasing n :
  Z.of_nat n <= 65536 -> StronglySorted Z.lt (numbering n).
Proof.
  induction n as [|n IH]; intros Hn; [constructor|].
  rewrite numbering_S. apply StronglySorted_snoc; [apply IH; lia|].
  rewrite Forall_forall. intros x Hx.
  unfold numbering in Hx. apply in_map_iff in Hx as [i [Hi Hin]].
  apply in_seq in Hin. subst x.
  rewrite !u16_small by lia. lia.
Qed.

(** X13: while at most 65536 packets were generated, each consumer receives
    its packets with strictly increasing sequence numbers, and so does the
    pair of them taken together in the order of retrieval. *)
Theorem sequence_increasing_per_consumer :
  forall cfg evs c,
    let s := run cfg evs boot in
    Z.of_nat (length (store_log s)) <= 65536 ->
    StronglySorted Z.lt (map seq_of (dequeued s))
    /\ StronglySorted Z.lt (map seq_of (retrieved_by c s)).
Proof.
  intros cfg evs c s Hn.
  pose proof (reachable_run cfg evs) as Hs. fold s in Hs.
  destruct (inv_sequence Hs) as [_ Hnum].
  assert (Hall : StronglySorted Z.lt (map seq_of (dequeued s))).
  { apply StronglySorted_app_l with (l2 := map seq_of (storage s)).
    rewrite <- map_app, (inv_flow Hs). unfold stored. rewrite map_map.
    apply (@StronglySorted_map_filter _ _ Z.lt
             (fun x => seq_of (fst x)) snd).
    rewrite Hnum. now apply numbering_increasing. }
  split; [exact Hall|].
  unfold retrieved_by. unfold dequeued in Hall. rewrite map_map in Hall |- *.
  apply (@StronglySorted_map_filter _ _ Z.lt
           (fun x => seq_of (snd x)) (is_consumer c)).
  exact Hall.
Qed.

(** A run X13 applies to: in [contested_schedule] the processor receives
    the packets numbered 0 and 2, the transmitter those numbered 1 and 3. *)
Lemma sequence_increasing_per_consumer_witness :
  let s := run demo_config contested_schedule boot in
  map seq_of (retrieved_by Transmitter s) = [1; 3]
  /\ StronglySorted Z.lt (map seq_of (retrieved_by Transmitter s)).
Proof.
  cbv zeta. split; [vm_compute; reflexivity|].
  apply (sequence_increasing_per_consumer demo_config contested_schedule
           Transmitter).
  vm_compute. discriminate.
Defined.

(** ** The uptime inside one cycle *)

Lemma generate_system_telemetry_uptime cfg r s :
  exists p ok body,
    store_log (generate_system_telemetry cfg r s) = store_log s ++ [(p, ok)]
    /\ payload p = system body
    /\ SystemTelem.uptime_seconds body = system_uptime (generators s)
    /\ system_uptime (generators (generate_system_telemetry cfg r s))
       = u32 (system_uptime (generators s) + 1).
Proof.
  unfold generate_system_telemetry, telemetry_store_packet. simpl_world.
  destruct (length (storage s) <? capacity cfg)%nat; simpl_world;
    eexists; eexists; eexists; repeat split.
Qed.

Lemma generate_power_telemetry_uptime cfg r s :
  exists p ok body,
    store_log (generate_power_telemetry cfg r s) = store_log s ++ [(p, ok)]
    /\ payload p = power body
    /\ PowerTelem.battery_level body
       = u32 (85 - system_uptime (generators s) / 3600)
    /\ system_uptime (generators (generate_power_telemetry cfg r s))
       = system_uptime (generators s).
Proof.
  unfold generate_power_telemetry, telemetry_store_packet. simpl_world.
  destruct (length (storage s) <? capacity cfg)%nat; simpl_world;
    eexists; eexists; eexists; repeat split.
Qed.

Lemma generate_temperature_telemetry_uptime cfg r s :
  system_uptime (generators (generate_temperature_telemetry cfg r s))
  = system_uptime (generators s).
Proof.
  unfold generate_temperature_telemetry, telemetry_store_packet. simpl_world.
  destruct (length (storage s) <? capacity cfg)%nat; reflexivity.
Qed.

Lemma generate_subsystem_telemetry_uptime cfg r s :
  exists p ok body,
    store_log (generate_subsystem_telemetry cfg r s) = store_log s ++ [(p, ok)]
    /\ payload p = subsystems body
    /\ SubsystemTelem.comms_uptime body = system_uptime (generators s)
    /\ SubsystemTelem.payload_uptime body
       = u32 (system_uptime (generators s) - 100).
Proof.
  unfold generate_subsystem_telemetry, telemetry_store_packet. simpl_world.
  destruct (length (storage s) <? capacity cfg)%nat; simpl_world;
    eexists; eexists; eexists; repeat split.
Qed.

(** X14: inside one cycle the System generator advances the uptime counter
    before the other generators read it. From a state where the collector
    is at the head of its loop body, with arbitrary steps of the other
    tasks in between, the cycle's System packet carries the counter's value
    [u] at the start of the cycle, while its Power packet computes the
    battery level from [u + 1] and its Subsystem packet carries
    [u + 1] as comms uptime and [u + 1 - 100] as payload uptime (all modulo
    2^32). *)
Theorem uptime_within_cycle :
  forall cfg s r1 r2 r3 r4 i1 i2 i3,
    let s1 := step cfg (RunCollector r1) s in
    let s2 := step cfg (RunCollector r2) (run cfg i1 s1) in
    let s3 := step cfg (RunCollector r3) (run cfg i2 s2) in
    let s4 := step cfg (RunCollector r4) (run cfg i3 s3) in
    let u := system_uptime (generators s) in
    c_pc (collector s) = C_System ->
    awake (c_sleep (collector s)) = true ->
    collector_free i1 = true -> collector_free i2 = true ->
    collector_free i3 = true ->
    exists p1 p2 p3 p4 ok1 ok2 ok3 ok4 b1 b2 b4,
      store_log s4
      = store_log s ++ [(p1, ok1); (p2, ok2); (p3, ok3); (p4, ok4)]
      /\ payload p1 = system b1
      /\ payload p2 = power b2
      /\ payload p4 = subsystems b4
      /\ SystemTelem.uptime_seconds b1 = u
      /\ PowerTelem.battery_level b2 = u32 (85 - u32 (u + 1) / 3600)
      /\ SubsystemTelem.comms_uptime b4 = u32 (u + 1)
      /\ SubsystemTelem.payload_uptime b4 = u32 (u32 (u + 1) - 100)
      /\ system_uptime (generators s4) = u32 (u + 1).
Proof.
  intros cfg s r1 r2 r3 r4 i1 i2 i3 s1 s2 s3 s4 u Hpc Hw F1 F2 F3.
  (* the System generator *)
  assert (E1 : s1 = goto_collector C_Power (generate_system_telemetry cfg r1 s)).
  { unfold s1, step, vTelemetryCollectorTask. now rewrite Hw, Hpc. }
  destruct (generate_system_telemetry_uptime cfg r1 s)
    as (p1 & ok1 & b1 & L1 & P1 & U1 & G1).
  destruct (generate_system_telemetry_generated cfg r1 s) as [q1 K1].
  assert (W1 : awake (c_sleep (collector s1)) = true
               /\ c_pc (collector s1) = C_Power).
  { rewrite E1. simpl_world. rewrite (gen_collector K1). auto. }
  destruct W1 as [W1 Pc1].
  destruct (others_keep_collector cfg i1 F1 s1) as (L1' & G1' & Pc1' & W1').
  (* the Power generator *)
  set (t1 := run cfg i1 s1) in *.
  assert (E2 : s2 = goto_collector C_Temperature
                      (generate_power_telemetry cfg r2 t1)).
  { unfold s2, step, vTelemetryCollectorTask.
    now rewrite (W1' W1), Pc1', Pc1. }
  destruct (generate_power_telemetry_uptime cfg r2 t1)
    as (p2 & ok2 & b2 & L2 & P2 & B2 & G2).
  destruct (generate_power_telemetry_generated cfg r2 t1) as [q2 K2].
  assert (W2 : awake (c_sleep (collector s2)) = true
               /\ c_pc (collector s2) = C_Temperature).
  { rewrite E2. simpl_world. rewrite (gen_collector K2). auto. }
  destruct W2 as [W2 Pc2].
  destruct (others_keep_collector cfg i2 F2 s2) as (L2' & G2' & Pc2' & W2').
  (* the Temperature generator *)
  set (t2 := run cfg i2 s2) in *.
  assert (E3 : s3 = goto_collector C_Subsystem
                      (generate_temperature_telemetry cfg r3 t2)).
  { unfold s3, step, vTelemetryCollectorTask.
    now rewrite (W2' W2), Pc2', Pc2. }
  destruct (generate_temperature_telemetry_generated cfg r3 t2) as [p3 K3].
  pose proof (generate_temperature_telemetry_uptime cfg r3 t2) as G3.
  assert (W3 : awake (c_sleep (collector s3)) = true
               /\ c_pc (collector s3) = C_Subsystem).
  { rewrite E3. simpl_world. rewrite (gen_collector K3). auto. }
  destruct W3 as [W3 Pc3].
  destruct (others_keep_collector cfg i3 F3 s3) as (L3' & G3' & Pc3' & W3').
  (* the Subsystem generator *)
  set (t3 := run cfg i3 s3) in *.
  assert (E4 : s4 = goto_collector C_Delay
                      (generate_subsystem_telemetry cfg r4 t3)).
  { unfold s4, step, vTelemetryCollectorTask.
    now rewrite (W3' W3), Pc3', Pc3. }
  destruct (generate_subsystem_telemetry_uptime cfg r4 t3)
    as (p4 & ok4 & b4 & L4 & P4 & C4 & U4).
  destruct (generate_subsystem_telemetry_generated cfg r4 t3) as [q4 K4].
  (* the uptime counter along the cycle *)
  assert (H1 : system_uptime (generators t1) = u32 (u + 1)).
  { rewrite G1', E1. simpl_world. exact G1. }
  assert (H2 : system_uptime (generators t2) = u32 (u + 1)).
  { rewrite G2', E2. simpl_world. rewrite G2. exact H1. }
  assert (H3 : system_uptime (generators t3) = u32 (u + 1)).
  { rewrite G3', E3. simpl_world. rewrite G3. exact H2. }
  exists p1, p2, p3, p4, ok1, ok2.
  exists (length (storage t2) <? capacity cfg)%nat, ok4, b1, b2, b4.
  split.
  { rewrite E4. simpl_world. rewrite L4, L3', E3. simpl_world.
    rewrite (gen_log K3), L2', E2. simpl_world.
    rewrite L2, L1', E1. simpl_world. rewrite L1, <- !app_assoc.
    reflexivity. }
  rewrite B2, C4, U4, H1, H3.
  repeat split; auto.
  rewrite E4. simpl_world.
  destruct (generate_subsystem_telemetry_generated cfg r4 t3) as [q K].
  unfold generate_subsystem_telemetry, telemetry_store_packet. simpl_world.
  destruct (length (storage t3) <? capacity cfg)%nat; simpl_world; exact H3.
Qed.

(** A run X14 applies to: the first cycle after the prologue, with the
    tick and the processor running in between. *)
Lemma uptime_within_cycle_witness :
  let s := run demo_config [RunCollector quiet] boot in
  let s1 := step demo_config (RunCollector quiet) s in
  let s2 := step demo_config (RunCollector quiet) (run demo_config [Tick] s1) in
  let s3 := step demo_config (RunCollector quiet)
              (run demo_config [RunProcessor] s2) in
  let s4 := step demo_config (RunCollector quiet) (run demo_config [] s3) in
  c_pc (collector s) = C_System
  /\ awake (c_sleep (collector s)) = true
  /\ system_uptime (generators s) = 0
  /\ system_uptime (generators s4) = 1.
Proof.
  cbv zeta.
  assert (Hpc : c_pc (collector (run demo_config [RunCollector quiet] boot))
                = C_System) by (vm_compute; reflexivity).
  assert (Hw : awake (c_sleep (collector
                 (run demo_config [RunCollector quiet] boot))) = true)
    by (vm_compute; reflexivity).
  assert (Hu : system_uptime (generators
                 (run demo_config [RunCollector quiet] boot)) = 0)
    by (vm_compute; reflexivity).
  split; [exact Hpc|]. split; [exact Hw|]. split; [exact Hu|].
  destruct (uptime_within_cycle demo_config
              (run demo_config [RunCollector quiet] boot)
              quiet quiet quiet quiet [Tick] [RunProcessor] []
              Hpc Hw eq_refl eq_refl eq_refl)
    as (p1 & p2 & p3 & p4 & ok1 & ok2 & ok3 & ok4 & b1 & b2 & b4 & H).
  destruct H as (_ & _ & _ & _ & _ & _ & _ & _ & Hup).
  rewrite Hup, Hu. reflexivity.
Defined.
